(** * GitHubAnalyzer: repository ingestion pipeline

    A shallow embedding of [src/code_agent/github_analyze.py]: the file
    classifier ([find_files]), the prompt generator
    ([generate_file_prompts]), the tree serializer ([generate_file_tree])
    and the orchestrator ([analyze]), over an explicit model of the file
    system and of the external processes the code starts. *)

From Stdlib Require Import List String Ascii Bool Arith Lia.
Import ListNotations.
Set Warnings "-register-all".
Local Open Scope string_scope.
Local Open Scope list_scope.

(** ** Python strings *)

Module PyStr.

(** [s.startswith(pre)]. *)
Definition startswith (s pre : string) : bool := String.prefix pre s.

(** [s.endswith(suf)]: some tail of [s] is [suf]. *)
Fixpoint endswith (s suf : string) : bool :=
  (s =? suf) ||
  match s with
  | EmptyString => false
  | String _ t => endswith t suf
  end.

(** [sub in s]. *)
Fixpoint contains (sub s : string) : bool :=
  String.prefix sub s ||
  match s with
  | EmptyString => false
  | String _ t => contains sub t
  end.

(** [s.split('/')], with the segment being read kept in [cur]. *)
Fixpoint split_from (cur s : string) : list string :=
  match s with
  | EmptyString => [cur]
  | String c t =>
      if Ascii.eqb c "/"%char then cur :: split_from "" t
      else split_from (cur ++ String c "") t
  end.

Definition split_slash (s : string) : list string := split_from "" s.

(** ['/'.join(l)]. *)
Definition join_slash (l : list string) : string := String.concat "/" l.

(** [s.lstrip('/')]. *)
Fixpoint lstrip_slash (s : string) : string :=
  match s with
  | String c t => if Ascii.eqb c "/"%char then lstrip_slash t else s
  | EmptyString => s
  end.

Fixpoint last_char (s : string) : option ascii :=
  match s with
  | EmptyString => None
  | String c EmptyString => Some c
  | String _ t => last_char t
  end.

Fixpoint has_slash (s : string) : bool :=
  match s with
  | EmptyString => false
  | String c t => Ascii.eqb c "/"%char || has_slash t
  end.

Definition CR : ascii := "013"%char.
Definition LF : ascii := "010"%char.

(** What reading in text mode with the default [newline=None] makes of
    the decoded text: a carriage return followed by a line feed, and a
    carriage return alone, become one line feed. *)
Fixpoint universal_newlines (s : string) : string :=
  match s with
  | EmptyString => EmptyString
  | String c t =>
      if Ascii.eqb c CR then
        String LF
          match t with
          | String d t' =>
              if Ascii.eqb d LF then universal_newlines t'
              else universal_newlines t
          | EmptyString => EmptyString
          end
      else String c (universal_newlines t)
  end.

Fixpoint has_cr (s : string) : bool :=
  match s with
  | EmptyString => false
  | String c t => Ascii.eqb c CR || has_cr t
  end.

End PyStr.

(** ** Python exceptions

    Only the classes the code can meet and tell apart; every one of them
    derives from [Exception]. *)

Inductive exn_class : Type :=
| FileNotFoundError
| PermissionError
| IsADirectoryError
| NotADirectoryError
| FileExistsError
| OSError
| CalledProcessError
| UnicodeDecodeError
| ValueError.

(** An exception: its class and [str(e)]. *)
Record exn : Type := Exn { exn_cls : exn_class; exn_str : string }.

Definition is_FileNotFoundError (e : exn) : bool :=
  match exn_cls e with FileNotFoundError => true | _ => false end.

Definition is_UnicodeDecodeError (e : exn) : bool :=
  match exn_cls e with UnicodeDecodeError => true | _ => false end.

(** A computation that returns or raises. *)
Inductive exc (A : Type) : Type :=
| Ok (a : A)
| Raise (e : exn).
Arguments Ok {A} a.
Arguments Raise {A} e.

(** ** Python dicts with string keys

    An association list in insertion order; assigning to a key that is
    present replaces its value in place. *)

Module Dict.

Definition t (V : Type) : Type := list (string * V).

Fixpoint get {V : Type} (k : string) (d : t V) : option V :=
  match d with
  | [] => None
  | (k', v) :: r => if k' =? k then Some v else get k r
  end.

(** [d[k] = v]. *)
Fixpoint set {V : Type} (k : string) (v : V) (d : t V) : t V :=
  match d with
  | [] => [(k, v)]
  | (k', v') :: r => if k' =? k then (k', v) :: r else (k', v') :: set k v r
  end.

Definition keys {V : Type} (d : t V) : list string := map fst d.

(** [bool(d)]: a dict is true when it is not empty. *)
Definition truthy {V : Type} (d : t V) : bool :=
  match d with [] => false | _ => true end.

End Dict.

(** ** pathlib paths

    A path is the list of its [parts]; an absolute path starts with its
    root, ["/"] (or ["//"]). *)

Module PurePath.

Definition t : Type := list string.

Definition is_root (part : string) : bool := PyStr.startswith part "/".

Definition is_absolute (p : t) : bool :=
  match p with
  | r :: _ => is_root r
  | [] => false
  end.

(** The root of a string: ["//"] for exactly two leading slashes, ["/"]
    for any other number of them, none otherwise. *)
Definition splitroot (s : string) : option string :=
  if PyStr.startswith s "/" then
    if Nat.eqb (String.length s - String.length (PyStr.lstrip_slash s)) 2
    then Some "//" else Some "/"
  else None.

Definition keep_segment (x : string) : bool :=
  negb (x =? "") && negb (x =? ".").

(** [Path(s)]. *)
Definition Path (s : string) : t :=
  let segs := filter keep_segment (PyStr.split_slash (PyStr.lstrip_slash s)) in
  match splitroot s with
  | Some r => r :: segs
  | None => segs
  end.

(** [a / b] for two paths: an absolute [b] replaces [a]. *)
Definition joinpath (a b : t) : t :=
  if is_absolute b then b else a ++ b.

(** [str(p)]. *)
Definition str (p : t) : string :=
  match p with
  | [] => "."
  | r :: tl => if is_root r then r ++ PyStr.join_slash tl
               else PyStr.join_slash p
  end.

(** [p.name]: the last part, empty for a bare root and for [Path('.')]. *)
Definition name (p : t) : string :=
  match p with
  | [] => ""
  | [r] => if is_root r then "" else r
  | _ => last p ""
  end.

(** [p.parent]. *)
Definition parent (p : t) : t :=
  match p with
  | [r] => if is_root r then p else []
  | _ => removelast p
  end.

Fixpoint strip_prefix (pre p : t) : option t :=
  match pre, p with
  | [], _ => Some p
  | a :: pre', b :: p' => if a =? b then strip_prefix pre' p' else None
  | _ :: _, [] => None
  end.

(** [p.relative_to(other)]: [ValueError] unless the parts of [other]
    start those of [p]; an absolute path is not relative to
    [Path('.')]. *)
Definition relative_to (p other : t) : exc t :=
  let err := Raise (Exn ValueError
               ("'" ++ str p ++ "' is not in the subpath of '" ++ str other ++ "'")) in
  match other with
  | [] => if is_absolute p then err else Ok p
  | _ => match strip_prefix other p with
         | Some rel => Ok rel
         | None => err
         end
  end.

(** A relative path made of proper names: no part is empty, is ["."]
    or holds a slash. *)
Definition wf_part (x : string) : bool :=
  keep_segment x && negb (PyStr.has_slash x).

Definition wf_rel (p : t) : bool := forallb wf_part p.

Definition wf (p : t) : bool :=
  match p with
  | r :: tl => if is_root r then wf_rel tl else wf_rel p
  | [] => true
  end.

End PurePath.

(** ** The file system

    The tree below the root directory.  The process runs with the root as
    its current directory, so a relative path and the absolute path with
    the same names denote one object.  Symbolic links are not modelled,
    and a path is taken by its names: the name [..] is not resolved to
    the parent directory, and no tree has an entry of that name. *)

Module FS.

(** What a regular file holds: bytes that decode as UTF-8 to the text
    [raw], line ends as they are stored, or bytes the codec rejects with
    the given message. *)
Inductive content : Type :=
| Text (raw : string)
| Undecodable (why : string).

Inductive node : Type :=
| File (c : content)                 (* a regular file *)
| Dir (kids : list (string * node))  (* a directory and its entries *)
| NoList                             (* a directory that refuses to be listed *)
| Special                            (* exists, neither regular file nor directory *)
| Denied.                            (* an entry whose stat is refused *)

Fixpoint assoc (c : string) (kids : list (string * node)) : option node :=
  match kids with
  | [] => None
  | (k, n) :: r => if k =? c then Some n else assoc c r
  end.

(** The names of a path below the root directory. *)
Definition resolve (p : PurePath.t) : list string :=
  match p with
  | r :: tl => if PurePath.is_root r then tl else p
  | [] => []
  end.

Fixpoint lookup (n : node) (names : list string) : option node :=
  match names with
  | [] => Some n
  | c :: rest =>
      match n with
      | Dir kids =>
          match assoc c kids with
          | Some ch => lookup ch rest
          | None => None
          end
      | _ => None
      end
  end.

Definition at_path (fs : node) (p : PurePath.t) : option node :=
  lookup fs (resolve p).

(** Whether the tree has an entry at [p], whatever it is; this is what
    [os.path.exists(p)] answers on a directory. *)
Definition exists_ (fs : node) (p : PurePath.t) : bool :=
  match at_path fs p with Some _ => true | None => false end.

(** What a [stat] finds. *)
Inductive found : Type :=
| Found (n : node)
| Absent
| Refused.

Definition refuses (kv : string * node) : bool :=
  match snd kv with
  | Denied => true
  | _ => false
  end.

(** The [stat] of the names below a node.  It is refused at an entry
    that refuses its stat and below a directory that cannot be entered:
    one that refuses to be listed, or one that holds an entry whose stat
    is refused, where the stat of an absent name is refused as well. *)
Fixpoint stat (n : node) (names : list string) : found :=
  match names with
  | [] =>
      match n with
      | Denied => Refused
      | _ => Found n
      end
  | c :: rest =>
      match n with
      | Dir kids =>
          match assoc c kids with
          | Some ch => stat ch rest
          | None => if existsb refuses kids then Refused else Absent
          end
      | NoList | Denied => Refused
      | File _ | Special => Absent
      end
  end.

Definition stat_at (fs : node) (p : PurePath.t) : found :=
  stat fs (resolve p).

Definition errno (cls : exn_class) (what : string) (p : PurePath.t) : exn :=
  Exn cls (what ++ ": '" ++ PurePath.str p ++ "'").

Definition EACCES := errno PermissionError "[Errno 13] Permission denied".
Definition ENOENT := errno FileNotFoundError "[Errno 2] No such file or directory".
Definition EISDIR := errno IsADirectoryError "[Errno 21] Is a directory".
Definition ENOTDIR := errno NotADirectoryError "[Errno 20] Not a directory".
Definition EEXIST := errno FileExistsError "[Errno 17] File exists".
Definition ENXIO := errno OSError "[Errno 6] No such device or address".

(** [p.exists()] of pathlib: a refused stat is raised, not answered. *)
Definition Path_exists (fs : node) (p : PurePath.t) : exc bool :=
  match stat_at fs p with
  | Found _ => Ok true
  | Absent => Ok false
  | Refused => Raise (EACCES p)
  end.

(** [item.is_file()] and [item.is_dir()] on an entry that was listed:
    a refused stat raises. *)
Definition is_file (p : PurePath.t) (n : node) : exc bool :=
  match n with
  | File _ => Ok true
  | Denied => Raise (EACCES p)
  | _ => Ok false
  end.

Definition is_dir (p : PurePath.t) (n : node) : exc bool :=
  match n with
  | Dir _ | NoList => Ok true
  | Denied => Raise (EACCES p)
  | _ => Ok false
  end.

(** [p.iterdir()], where [o] is what is found at [p]. *)
Definition iterdir (p : PurePath.t) (o : option node) : exc (list (string * node)) :=
  match o with
  | Some (Dir kids) => Ok kids
  | Some NoList => Raise (EACCES p)
  | Some Denied => Raise (EACCES p)
  | Some _ => Raise (ENOTDIR p)
  | None => Raise (ENOENT p)
  end.

(** [p.rglob('*')], as paths relative to [p]: the entries of a
    directory, then what each of its subdirectories yields in turn.  A
    directory that cannot be listed yields nothing. *)
Fixpoint rglob (n : node) : list (list string * node) :=
  match n with
  | Dir kids =>
      map (fun kv => ([fst kv], snd kv)) kids ++
      flat_map (fun kv => map (fun e => (fst kv :: fst e, snd e)) (rglob (snd kv))) kids
  | _ => []
  end.

Definition rglob_at (fs : node) (p : PurePath.t) : list (list string * node) :=
  match at_path fs p with
  | Some n => rglob n
  | None => []
  end.

(** [p.rglob('*')] as the loop of [find_files] consumes it: the
    selector first asks [p.is_dir()], outside any handler, so that a
    refused stat of [p] itself is raised. *)
Definition rglob_from (fs : node) (p : PurePath.t)
  : exc (list (list string * node)) :=
  match stat_at fs p with
  | Refused => Raise (EACCES p)
  | _ => Ok (rglob_at fs p)
  end.

(** [open(p, 'r', encoding='utf-8')] followed by [read()]: the bytes
    are decoded and the line ends translated. *)
Definition read_text (fs : node) (p : PurePath.t) : exc string :=
  match stat_at fs p with
  | Found (File (Text raw)) => Ok (PyStr.universal_newlines raw)
  | Found (File (Undecodable why)) => Raise (Exn UnicodeDecodeError why)
  | Found (Dir _) | Found NoList => Raise (EISDIR p)
  | Found Special => Raise (ENXIO p)
  | Found Denied | Refused => Raise (EACCES p)
  | Absent => Raise (ENOENT p)
  end.

(** The tree without the entry at [names]. *)
Fixpoint remove_at (names : list string) (n : node) : node :=
  match names with
  | [] => n
  | [c] =>
      match n with
      | Dir kids => Dir (filter (fun kv => negb (fst kv =? c)) kids)
      | _ => n
      end
  | c :: rest =>
      match n with
      | Dir kids =>
          Dir (map (fun kv => if fst kv =? c
                              then (fst kv, remove_at rest (snd kv))
                              else kv) kids)
      | _ => n
      end
  end.

Fixpoint replace (c : string) (n : node) (kids : list (string * node)) :=
  match kids with
  | [] => []
  | (k, m) :: r => if k =? c then (k, n) :: r else (k, m) :: replace c n r
  end.

(** [p.mkdir(parents=True, exist_ok=True)], on the names of [p]:
    missing directories are created, a name that is taken by something
    else than a directory is an error, and so is a directory on the way
    that cannot be entered. *)
Fixpoint mkdir_p (p : PurePath.t) (names : list string) (n : node) : exc node :=
  match names with
  | [] =>
      match n with
      | Dir _ | NoList => Ok n
      | Denied => Raise (EACCES p)
      | _ => Raise (EEXIST p)
      end
  | c :: rest =>
      match n with
      | Dir kids =>
          match assoc c kids with
          | Some ch =>
              match mkdir_p p rest ch with
              | Ok ch' => Ok (Dir (replace c ch' kids))
              | Raise e => Raise e
              end
          | None =>
              if existsb refuses kids then Raise (EACCES p)
              else
                match mkdir_p p rest (Dir []) with
                | Ok ch' => Ok (Dir (kids ++ [(c, ch')]))
                | Raise e => Raise e
                end
          end
      | NoList | Denied => Raise (EACCES p)
      | _ => Raise (ENOTDIR p)
      end
  end.

Definition mkdir_parents (p : PurePath.t) (fs : node) : exc node :=
  mkdir_p p (resolve p) fs.

End FS.

(** ** The operating system

    What the process cannot decide by itself: the programs it starts and
    whether an entry may be removed. *)

Module OS.

(** [subprocess.run(argv, capture_output=True, text=True, check=True)]:
    the call returns when the program ran and exited with status 0 (only
    the captured standard output is used by the code), and raises
    otherwise: [FileNotFoundError] when the program is not installed,
    [CalledProcessError] when it exited with another status. *)
Inductive run_outcome : Type :=
| Returned (stdout : string)
| Raised (e : exn).

Record env : Type := Env {
  subprocess_run : list string -> FS.node -> run_outcome * FS.node;
  removable : PurePath.t -> bool
}.

(** [p.unlink()]. *)
Definition unlink (E : env) (p : PurePath.t) (fs : FS.node) : exc FS.node :=
  match FS.at_path fs p with
  | None => Raise (FS.ENOENT p)
  | Some (FS.Dir _) | Some FS.NoList => Raise (FS.EISDIR p)
  | Some _ =>
      match FS.resolve p with
      | [] => Raise (FS.EACCES p)
      | names => if removable E p then Ok (FS.remove_at names fs)
                 else Raise (FS.EACCES p)
      end
  end.

(** [shutil.rmtree(p, ignore_errors=True)]: the directory goes with all
    it holds when its removal is permitted; anything that fails is
    ignored, and the entry is then still there (what a failed removal
    took away below it is not modelled). *)
Definition rmtree_ignore_errors (E : env) (p : PurePath.t) (fs : FS.node) : FS.node :=
  match FS.at_path fs p, FS.resolve p with
  | Some (FS.Dir _), _ :: _ =>
      if removable E p then FS.remove_at (FS.resolve p) fs else fs
  | _, _ => fs
  end.

End OS.

(** ** The analyzer *)

Module GitHubAnalyzer.

Import PurePath.

(** The attributes of [self] the methods read, as [__init__] leaves
    them: [temp_dir] is the directory that was given, or the one
    [tempfile.mkdtemp()] made. *)
Record t : Type := Self { repo_url : string; temp_dir : string }.

(** The file tree of [generate_file_tree]: a name maps to the path of a
    file or to the tree of a directory. *)
Inductive ftree : Type :=
| Leaf (path : string)
| Sub (entries : list (string * ftree)).

Record result : Type := Result {
  filetree : Dict.t ftree;
  doc : Dict.t string;
  code : Dict.t string
}.

Definition clone_repository (self : t) (E : OS.env) (fs : FS.node)
  : exc PurePath.t * FS.node :=
  match OS.subprocess_run E ["git"; "clone"; repo_url self; temp_dir self] fs with
  | (OS.Returned _, fs') => (Ok (Path (temp_dir self)), fs')
  | (OS.Raised e, fs') => (Raise e, fs')
  end.

Definition doc_patterns : list string :=
  [".md"; ".rst"; ".txt"; "LICENSE"; "CONTRIBUTING"; "CODE_OF_CONDUCT"].

Definition code_patterns : list string :=
  [".py"; ".js"; ".java"; ".cpp"; ".go"; ".rs"; ".swift"; ".kt"; ".cs"; ".toml"].

Definition binary_patterns : list string :=
  [".pdf"; ".png"; ".jpg"; ".jpeg"; ".gif"; ".zip"; ".tar"; ".gz"].

(** [any(name.endswith(ext) for ext in binary_patterns)]. *)
Definition binary_name (name : string) : bool :=
  existsb (fun ext => PyStr.endswith name ext) binary_patterns.

Definition code_name (name : string) : bool :=
  existsb (fun ext => PyStr.endswith name ext) code_patterns.

(** [any(name.endswith(ext) or name == n for ext in doc_patterns
         for n in doc_patterns)]. *)
Definition doc_name (name : string) : bool :=
  existsb (fun ext =>
    existsb (fun n => PyStr.endswith name ext || (name =? n)) doc_patterns)
    doc_patterns.

(** The loop of [find_files] over what [rglob] yields; an exception
    leaves the loop, is logged and raised again. *)
Fixpoint find_loop (self : t) (path : PurePath.t)
    (entries : list (list string * FS.node))
    (code_files doc_files : list PurePath.t)
  : exc (list PurePath.t * list PurePath.t) :=
  match entries with
  | [] => Ok (code_files, doc_files)
  | (rel, n) :: rest =>
      let file_path := path ++ rel in
      match FS.is_file file_path n with
      | Raise e => Raise e
      | Ok false => find_loop self path rest code_files doc_files
      | Ok true =>
          if binary_name (name file_path)
          then find_loop self path rest code_files doc_files
          else
            match relative_to file_path path with
            | Raise e => Raise e
            | Ok relative_path =>
                let temp_dir_path := joinpath (Path (temp_dir self)) relative_path in
                if code_name (name file_path)
                then find_loop self path rest (code_files ++ [temp_dir_path]) doc_files
                else if doc_name (name file_path)
                then find_loop self path rest code_files (doc_files ++ [temp_dir_path])
                else find_loop self path rest code_files doc_files
            end
      end
  end.

Definition find_files (self : t) (path : PurePath.t) (fs : FS.node)
  : exc (list PurePath.t * list PurePath.t) :=
  match FS.rglob_from fs path with
  | Raise e => Raise e
  | Ok entries => find_loop self path entries [] []
  end.

(** The key of a file: its path relative to the workspace, or its bare
    name when [relative_to] raises [ValueError]. *)
Definition key_of (self : t) (file_path : PurePath.t) : string :=
  match relative_to file_path (Path (temp_dir self)) with
  | Ok relative_key => str relative_key
  | Raise _ => name file_path
  end.

Definition output_file_of (self : t) (file_path : PurePath.t) : PurePath.t :=
  joinpath (Path (temp_dir self)) (Path (key_of self file_path ++ ".prompt.txt")%string).

(** How the inner [try] of one iteration ends: a value is stored under
    the key, the file is skipped ([continue]), or an exception reaches
    [except Exception]. *)
Inductive attempt : Type :=
| Stored (v : string)
| Skipped
| Failed (e : exn).

(** The handler [except FileNotFoundError]: the raw content is read. *)
Definition read_raw (file_path : PurePath.t) (fs : FS.node) : attempt :=
  match FS.read_text fs file_path with
  | Ok s => Stored s
  | Raise e => if is_UnicodeDecodeError e then Skipped else Failed e
  end.

(** The command line of the rendering tool. *)
Definition code2prompt (file_path output_file : PurePath.t) : list string :=
  ["code2prompt"; str file_path; ("--output=" ++ str output_file)%string].

(** What becomes of an exception of the inner [try]: the handler takes
    a [FileNotFoundError], anything else goes on to [except Exception]. *)
Definition handle (e : exn) (file_path : PurePath.t) (fs : FS.node) : attempt :=
  if is_FileNotFoundError e then read_raw file_path fs else Failed e.

(** The inner [try] with its handler. *)
Definition render (E : OS.env) (file_path output_file : PurePath.t) (fs : FS.node)
  : attempt * FS.node :=
  match OS.subprocess_run E (code2prompt file_path output_file) fs with
  | (OS.Returned stdout, fs1) =>
      match FS.Path_exists fs1 output_file with
      | Ok true =>
          match FS.read_text fs1 output_file with
          | Ok s => (Stored s, fs1)
          | Raise e => (handle e file_path fs1, fs1)
          end
      | Ok false => (Stored stdout, fs1)
      | Raise e => (handle e file_path fs1, fs1)
      end
  | (OS.Raised e, fs1) => (handle e file_path fs1, fs1)
  end.

(** [any(marker in str(e) for marker in ['binary', 'UnicodeDecodeError'])]. *)
Definition binary_marker (e : exn) : bool :=
  existsb (fun marker => PyStr.contains marker (exn_str e))
    ["binary"; "UnicodeDecodeError"].

(** [f"Error processing file: {str(e)}"]. *)
Definition error_text (e : exn) : string :=
  "Error processing file: " ++ exn_str e.

(** What an attempt leaves in [prompts]. *)
Definition record (key : string) (a : attempt) (prompts : Dict.t string)
  : Dict.t string :=
  match a with
  | Stored v => Dict.set key v prompts
  | Skipped => prompts
  | Failed e =>
      if negb (binary_marker e)
      then Dict.set key (error_text e) prompts
      else prompts
  end.

(** The [finally] clause: the output file is removed when it exists, and
    a failure to remove it is only logged.  The test [exists()] stands
    outside the inner [try]: what it raises leaves the clause. *)
Definition cleanup_output (E : OS.env) (output_file : PurePath.t) (fs : FS.node)
  : exc FS.node :=
  match FS.Path_exists fs output_file with
  | Raise e => Raise e
  | Ok true =>
      match OS.unlink E output_file fs with
      | Ok fs' => Ok fs'
      | Raise _ => Ok fs
      end
  | Ok false => Ok fs
  end.

(** One iteration of the loop of [generate_file_prompts].  The [mkdir]
    stands before the [try]: what it raises leaves the method, and so
    does what the [finally] clause raises, the map being lost. *)
Definition process_file (self : t) (E : OS.env) (file_path : PurePath.t)
    (fs : FS.node) (prompts : Dict.t string)
  : exc (Dict.t string) * FS.node :=
  let key := key_of self file_path in
  let output_file := output_file_of self file_path in
  match FS.mkdir_parents (parent output_file) fs with
  | Raise e => (Raise e, fs)
  | Ok fs0 =>
      let (a, fs1) := render E file_path output_file fs0 in
      match cleanup_output E output_file fs1 with
      | Ok fs2 => (Ok (record key a prompts), fs2)
      | Raise e => (Raise e, fs1)
      end
  end.

Fixpoint prompt_loop (self : t) (E : OS.env) (file_paths : list PurePath.t)
    (fs : FS.node) (prompts : Dict.t string)
  : exc (Dict.t string) * FS.node :=
  match file_paths with
  | [] => (Ok prompts, fs)
  | file_path :: rest =>
      match process_file self E file_path fs prompts with
      | (Ok prompts', fs') => prompt_loop self E rest fs' prompts'
      | (Raise e, fs') => (Raise e, fs')
      end
  end.

Definition generate_file_prompts (self : t) (E : OS.env)
    (file_paths : list PurePath.t) (fs : FS.node)
  : exc (Dict.t string) * FS.node :=
  prompt_loop self E file_paths fs [].

(** The loop of [_build_tree] over the entries of [path], with
    [build] for the recursive call; [item_name] is [item.name].  The
    [try] spans the whole loop: an exception ends it and the tree built
    so far is returned. *)
Definition tree_loop (build : PurePath.t -> FS.node -> Dict.t ftree)
    (path : PurePath.t)
  : list (string * FS.node) -> Dict.t ftree -> Dict.t ftree :=
  fix loop (items : list (string * FS.node)) (tree : Dict.t ftree) :=
    match items with
    | [] => tree
    | (item_name, child) :: rest =>
        let item := path ++ [item_name] in
        if PyStr.startswith item_name "." then loop rest tree
        else
          match FS.is_file item child with
          | Raise _ => tree
          | Ok true => loop rest (Dict.set item_name (Leaf (str item)) tree)
          | Ok false =>
              match FS.is_dir item child with
              | Raise _ => tree
              | Ok true =>
                  let subtree := build item child in
                  if Dict.truthy subtree
                  then loop rest (Dict.set item_name (Sub subtree) tree)
                  else loop rest tree
              | Ok false => loop rest tree
              end
          end
    end.

(** [_build_tree], on what is found at [path]: [path.iterdir()] yields
    the entries of a directory that can be listed and raises on anything
    else, which leaves the tree empty. *)
Fixpoint _build_tree (path : PurePath.t) (n : FS.node) : Dict.t ftree :=
  match n with
  | FS.Dir items => tree_loop _build_tree path items []
  | FS.File _ | FS.NoList | FS.Special | FS.Denied => []
  end.

Definition generate_file_tree (path : PurePath.t) (fs : FS.node) : Dict.t ftree :=
  match FS.at_path fs path with
  | Some n => _build_tree path n
  | None => []
  end.

(** No directory of the tree is mapped to an empty dict. *)
Fixpoint no_empty_value (v : ftree) : bool :=
  match v with
  | Leaf _ => true
  | Sub entries =>
      Dict.truthy entries && forallb (fun kv => no_empty_value (snd kv)) entries
  end.

Definition no_empty_dirs (tree : Dict.t ftree) : bool :=
  forallb (fun kv => no_empty_value (snd kv)) tree.

(** The body of the [try] of [analyze]. *)
Definition analyze_body (self : t) (E : OS.env) (fs : FS.node)
  : exc result * FS.node :=
  match clone_repository self E fs with
  | (Raise e, fs1) => (Raise e, fs1)
  | (Ok repo_path, fs1) =>
      match find_files self repo_path fs1 with
      | Raise e => (Raise e, fs1)
      | Ok (code_files, doc_files) =>
          match generate_file_prompts self E code_files fs1 with
          | (Raise e, fs2) => (Raise e, fs2)
          | (Ok code_prompts, fs2) =>
              match generate_file_prompts self E doc_files fs2 with
              | (Raise e, fs3) => (Raise e, fs3)
              | (Ok doc_prompts, fs3) =>
                  let file_tree := generate_file_tree repo_path fs3 in
                  (Ok (Result file_tree doc_prompts code_prompts), fs3)
              end
          end
      end
  end.

(** The [finally] clause of [analyze]. *)
Definition cleanup (self : t) (E : OS.env) (fs : FS.node) : FS.node :=
  if FS.exists_ fs (Path (temp_dir self))
  then OS.rmtree_ignore_errors E (Path (temp_dir self)) fs
  else fs.

Definition analyze (self : t) (E : OS.env) (fs : FS.node)
  : exc result * FS.node :=
  let (r, fs1) := analyze_body self E fs in
  (r, cleanup self E fs1).

End GitHubAnalyzer.

(** ** Well-formed trees and induction over them *)

(** Every entry of the tree has a proper name. *)
Fixpoint wf_names (n : FS.node) : bool :=
  match n with
  | FS.Dir kids =>
      forallb (fun kv => PurePath.wf_part (fst kv) && wf_names (snd kv)) kids
  | _ => true
  end.

Section NodeInduction.

Variable P : FS.node -> Prop.
Hypothesis P_File : forall c, P (FS.File c).
Hypothesis P_Dir : forall kids, Forall (fun kv => P (snd kv)) kids -> P (FS.Dir kids).
Hypothesis P_NoList : P FS.NoList.
Hypothesis P_Special : P FS.Special.
Hypothesis P_Denied : P FS.Denied.

Fixpoint node_induction (n : FS.node) : P n :=
  match n with
  | FS.File c => P_File c
  | FS.Dir kids =>
      P_Dir kids
        ((fix all (l : list (string * FS.node))
            : Forall (fun kv => P (snd kv)) l :=
            match l with
            | [] => Forall_nil _
            | kv :: r => Forall_cons kv (node_induction (snd kv)) (all r)
            end) kids)
  | FS.NoList => P_NoList
  | FS.Special => P_Special
  | FS.Denied => P_Denied
  end.

End NodeInduction.

(** ** Vocabulary of the statements *)

(** Where a listed path comes from: a regular file that [rglob] yielded,
    whose name is not a binary name and is a code name (for the code list)
    or no code name but a documentation name (for the doc list). *)
Definition origin (self : GitHubAnalyzer.t) (path : PurePath.t)
    (entries : list (list string * FS.node)) (as_code : bool) (p : PurePath.t)
  : Prop :=
  exists rel c relative_path,
    In (rel, FS.File c) entries /\
    GitHubAnalyzer.binary_name (PurePath.name (path ++ rel)) = false /\
    PurePath.relative_to (path ++ rel) path = Ok relative_path /\
    p = PurePath.joinpath (PurePath.Path (GitHubAnalyzer.temp_dir self)) relative_path /\
    (if as_code then GitHubAnalyzer.code_name (PurePath.name (path ++ rel)) = true
     else GitHubAnalyzer.code_name (PurePath.name (path ++ rel)) = false /\
          GitHubAnalyzer.doc_name (PurePath.name (path ++ rel)) = true).

(** ** Scenarios

    Concrete analyzers, file systems and environments on which the
    statements below are exercised. *)

Module Scenario.

Import FS OS GitHubAnalyzer.

Definition me : GitHubAnalyzer.t := Self "https://github.com/u/r" "/tmp/w".

Definition workspace : PurePath.t := PurePath.Path (temp_dir me).

(** A checked-out repository. *)
Definition repo : node :=
  Dir [("src", Dir [("main.py", File (Text "print(1)"))]);
       ("README.md", File (Text "# Title"));
       ("MIT-LICENSE", File (Text "Permission is hereby granted"));
       ("assets", Dir [("img", Dir [("logo.png", File (Undecodable
          "'utf-8' codec can't decode byte 0x89 in position 0: invalid start byte"))])]);
       ("dist", Dir []);
       ("private", NoList)].

Definition fs_empty : node := Dir [("tmp", Dir [])].

Definition fs_cloned : node := Dir [("tmp", Dir [("w", repo)])].

Definition not_installed : exn :=
  Exn FileNotFoundError "[Errno 2] No such file or directory: 'code2prompt'".

(** [git] checks [repo] out into the workspace; [code2prompt] is not
    installed. *)
Definition run_git_only (argv : list string) (fs : node) : run_outcome * node :=
  match argv with
  | "git" :: _ => (Returned "", fs_cloned)
  | _ => (Raised not_installed, fs)
  end.

Definition env_plain : env := Env run_git_only (fun _ => true).

(** The same, where the workspace cannot be removed. *)
Definition env_protected : env := Env run_git_only (fun _ => false).

End Scenario.

Module PromptScenario.

Import FS OS GitHubAnalyzer.

Definition main_py : PurePath.t := ["/"; "tmp"; "w"; "src"; "main.py"].

Definition main_py_out : PurePath.t := ["/"; "tmp"; "w"; "src"; "main.py.prompt.txt"].

(** The workspace once the tool has written its output for [main_py]. *)
Definition fs_rendered : node :=
  Dir [("tmp", Dir [("w", Dir
    [("src", Dir [("main.py", File (Text "print(1)"));
                  ("main.py.prompt.txt", File (Text "PROMPT print(1)"))])])])].

Definition fs_source : node :=
  Dir [("tmp", Dir [("w", Dir
    [("src", Dir [("main.py", File (Text "print(1)"))])])])].

(** The tool writes its output file and exits with status 0. *)
Definition run_writes (argv : list string) (fs : node) : run_outcome * node :=
  match argv with
  | "code2prompt" :: _ => (Returned "", fs_rendered)
  | _ => (Raised Scenario.not_installed, fs)
  end.

Definition env_writes : env := Env run_writes (fun _ => true).

(** The same, where the output file cannot be removed. *)
Definition env_writes_protected : env := Env run_writes (fun _ => false).






(** A file with a code suffix that is not text. *)
Definition blob_py : PurePath.t := ["/"; "tmp"; "w"; "blob.py"].

Definition fs_blob : node :=
  Dir [("tmp", Dir [("w", Dir
    [("blob.py", File (Undecodable
       "'utf-8' codec can't decode byte 0xff in position 0: invalid start byte"));
     ("ok.py", File (Text "pass"))])])].

Definition ok_py : PurePath.t := ["/"; "tmp"; "w"; "ok.py"].

(** Two files outside the workspace that share their name. *)
Definition a_x_py : PurePath.t := ["/"; "a"; "x.py"].

Definition b_x_py : PurePath.t := ["/"; "b"; "x.py"].

Definition fs_outside : node :=
  Dir [("a", Dir [("x.py", File (Text "A"))]);
       ("b", Dir [("x.py", File (Text "B"))]);
       ("tmp", Dir [("w", Dir [])])].

End PromptScenario.

(** The file lies in the workspace: [relative_to] does not raise. *)
Definition inside (self : GitHubAnalyzer.t) (file_path : PurePath.t) : bool :=
  match PurePath.relative_to file_path
          (PurePath.Path (GitHubAnalyzer.temp_dir self)) with
  | Ok _ => true
  | Raise _ => false
  end.

Module FailureScenario.

Import FS OS GitHubAnalyzer.

Definition clone_failed : exn :=
  Exn CalledProcessError
    "Command '['git', 'clone', 'https://github.com/u/r', '/tmp/w']' returned non-zero exit status 128.".

(** What a clone that fails half-way leaves behind. *)
Definition fs_partial : node := Dir [("tmp", Dir [("w", Dir [(".git", Dir [])])])].

Definition run_git_fails (argv : list string) (fs : node) : run_outcome * node :=
  match argv with
  | "git" :: _ => (Raised clone_failed, fs_partial)
  | _ => (Raised Scenario.not_installed, fs)
  end.

Definition env_clone_fails : env := Env run_git_fails (fun _ => true).

(** A checkout with an entry whose stat is refused. *)
Definition fs_denied : node :=
  Dir [("tmp", Dir [("w", Dir [("main.py", File (Text "pass")); ("locked", Denied)])])].

Definition run_git_denied (argv : list string) (fs : node) : run_outcome * node :=
  match argv with
  | "git" :: _ => (Returned "", fs_denied)
  | _ => (Raised Scenario.not_installed, fs)
  end.

Definition env_denied : env := Env run_git_denied (fun _ => true).

End FailureScenario.

(** What [find_files] makes of an entry that [rglob] yielded. *)
Definition code_entry (path : PurePath.t) (e : list string * FS.node) : bool :=
  match snd e with
  | FS.File _ =>
      negb (GitHubAnalyzer.binary_name (PurePath.name (path ++ fst e)))
      && GitHubAnalyzer.code_name (PurePath.name (path ++ fst e))
  | _ => false
  end.

Definition doc_entry (path : PurePath.t) (e : list string * FS.node) : bool :=
  match snd e with
  | FS.File _ =>
      negb (GitHubAnalyzer.binary_name (PurePath.name (path ++ fst e)))
      && negb (GitHubAnalyzer.code_name (PurePath.name (path ++ fst e)))
      && GitHubAnalyzer.doc_name (PurePath.name (path ++ fst e))
  | _ => false
  end.

Definition stat_refused (e : list string * FS.node) : bool :=
  match snd e with
  | FS.Denied => true
  | _ => false
  end.

(** The path of an entry, taken below the workspace. *)
Definition anchored (self : GitHubAnalyzer.t) (e : list string * FS.node)
  : PurePath.t :=
  PurePath.Path (GitHubAnalyzer.temp_dir self) ++ fst e.

(** No name of the tree starts with a dot, at any depth. *)
Fixpoint no_hidden_value (v : GitHubAnalyzer.ftree) : bool :=
  match v with
  | GitHubAnalyzer.Leaf _ => true
  | GitHubAnalyzer.Sub entries =>
      forallb (fun kv => negb (PyStr.startswith (fst kv) ".")
                         && no_hidden_value (snd kv)) entries
  end.

Definition no_hidden (tree : Dict.t GitHubAnalyzer.ftree) : bool :=
  forallb (fun kv => negb (PyStr.startswith (fst kv) ".")
                     && no_hidden_value (snd kv)) tree.

(** What the tree of [path] holds for the entry [item_name] of [path]:
    the path of a regular file, the tree of a directory when it is not
    empty, and nothing for a hidden entry or one of another kind. *)
Definition tree_value (path : PurePath.t) (item_name : string) (child : FS.node)
  : option GitHubAnalyzer.ftree :=
  if PyStr.startswith item_name "." then None
  else
    match child with
    | FS.File _ => Some (GitHubAnalyzer.Leaf (PurePath.str (path ++ [item_name])))
    | FS.Dir _ | FS.NoList =>
        let subtree := GitHubAnalyzer._build_tree (path ++ [item_name]) child in
        if Dict.truthy subtree then Some (GitHubAnalyzer.Sub subtree) else None
    | FS.Special | FS.Denied => None
    end.

Definition stat_refused_kid (kv : string * FS.node) : bool :=
  match snd kv with
  | FS.Denied => true
  | _ => false
  end.

(** The names of the output file of a file, below the workspace: the
    file's own place with [.prompt.txt] added to its last name when the
    file lies in the workspace, its bare name with [.prompt.txt]
    otherwise. *)
Definition output_names (self : GitHubAnalyzer.t) (file_path : PurePath.t)
  : list string :=
  match PurePath.relative_to file_path
          (PurePath.Path (GitHubAnalyzer.temp_dir self)) with
  | Ok [] => ["..prompt.txt"]
  | Ok rel => removelast rel ++ [(last rel "" ++ ".prompt.txt")%string]
  | Raise _ => [(PurePath.name file_path ++ ".prompt.txt")%string]
  end.

(** The tool is not installed: started on [file_path] in [fs], it
    raises [FileNotFoundError] and leaves the file system alone. *)
Definition tool_missing (self : GitHubAnalyzer.t) (E : OS.env) (fs : FS.node)
    (file_path : PurePath.t) : Prop :=
  exists e0,
    OS.subprocess_run E
      (GitHubAnalyzer.code2prompt file_path
         (GitHubAnalyzer.output_file_of self file_path)) fs
    = (OS.Raised e0, fs) /\
    is_FileNotFoundError e0 = true.

(** The iteration on [file_path] has nothing to make and nothing to
    remove in [fs]: the directory of the output file is there and the
    output file is not. *)
Definition nothing_to_touch (self : GitHubAnalyzer.t) (fs : FS.node)
    (file_path : PurePath.t) : Prop :=
  FS.mkdir_parents
    (PurePath.parent (GitHubAnalyzer.output_file_of self file_path)) fs = Ok fs /\
  FS.Path_exists fs (GitHubAnalyzer.output_file_of self file_path) = Ok false.

(** What the raw content of a file adds to the map. *)
Definition record_raw (self : GitHubAnalyzer.t) (fs : FS.node)
    (prompts : Dict.t string) (file_path : PurePath.t) : Dict.t string :=
  GitHubAnalyzer.record (GitHubAnalyzer.key_of self file_path)
    (GitHubAnalyzer.read_raw file_path fs) prompts.

Module MarkerScenario.

Import FS OS GitHubAnalyzer.






Definition bad_start : string :=
  "'utf-8' codec can't decode byte 0x89 in position 0: invalid start byte".

(** The tool writes an output file that is not UTF-8. *)
Definition fs_rendered_blob : node :=
  Dir [("tmp", Dir [("w", Dir
    [("src", Dir [("main.py", File (Text "print(1)"));
                  ("main.py.prompt.txt", File (Undecodable bad_start))])])])].

Definition run_writes_blob (argv : list string) (fs : node) : run_outcome * node :=
  match argv with
  | "code2prompt" :: _ => (Returned "", fs_rendered_blob)
  | _ => (Raised Scenario.not_installed, fs)
  end.

Definition env_writes_blob : env := Env run_writes_blob (fun _ => true).

(** The tool writes an output file with a Windows line end. *)
Definition crlf_text : string :=
  ("a" ++ String PyStr.CR (String PyStr.LF "b"))%string.

Definition lf_text : string := ("a" ++ String PyStr.LF "b")%string.

Definition fs_rendered_crlf : node :=
  Dir [("tmp", Dir [("w", Dir
    [("src", Dir [("main.py", File (Text "print(1)"));
                  ("main.py.prompt.txt", File (Text crlf_text))])])])].

Definition run_writes_crlf (argv : list string) (fs : node) : run_outcome * node :=
  match argv with
  | "code2prompt" :: _ => (Returned "", fs_rendered_crlf)
  | _ => (Raised Scenario.not_installed, fs)
  end.

Definition env_writes_crlf : env := Env run_writes_crlf (fun _ => true).

(** Files outside a workspace that exists and cannot be entered. *)
Definition data_blob_py : PurePath.t := ["/"; "data"; "blob.py"].

Definition data_ok_py : PurePath.t := ["/"; "data"; "ok.py"].

Definition fs_closed_workspace : node :=
  Dir [("data", Dir [("blob.py", File (Undecodable
          "'utf-8' codec can't decode byte 0xff in position 0: invalid start byte"));
                     ("ok.py", File (Text "pass"))]);
       ("tmp", Dir [("w", NoList)])].

End MarkerScenario.

Module CollisionScenario.

Import FS OS GitHubAnalyzer.

(** A file outside the workspace with the name of one right below it. *)
Definition a_ok_py : PurePath.t := ["/"; "a"; "ok.py"].

Definition w_ok_py : PurePath.t := ["/"; "tmp"; "w"; "ok.py"].

Definition fs_mixed : node :=
  Dir [("a", Dir [("ok.py", File (Text "OUTSIDE"))]);
       ("tmp", Dir [("w", Dir [("ok.py", File (Text "INSIDE"))])])].

End CollisionScenario.

(** No name of the list is [..]. *)
Definition no_dotdot (names : list string) : bool :=
  forallb (fun x => negb (x =? "..")) names.

(** * Properties *)

(** ** Strings *)

Section StringFacts.

Lemma endswith_empty (suf : string) :
  PyStr.endswith "" suf = true -> suf = "".
Proof.
  cbn [PyStr.endswith]. rewrite orb_false_r. intros H.
  apply String.eqb_eq in H. now subst.
Qed.

Lemma endswith_refl (s : string) : PyStr.endswith s s = true.
Proof.
  destruct s; cbn [PyStr.endswith]; now rewrite String.eqb_refl.
Qed.

(** A string and a non-empty suffix of it end with the same character. *)
Lemma endswith_last_char (s suf : string) :
  PyStr.endswith s suf = true -> suf <> "" ->
  PyStr.last_char s = PyStr.last_char suf.
Proof.
  induction s as [|c t IH]; intros H Hne.
  - apply endswith_empty in H. contradiction.
  - cbn [PyStr.endswith] in H. apply orb_true_iff in H as [H|H].
    + apply String.eqb_eq in H. now subst.
    + specialize (IH H Hne). destruct t as [|c' t'].
      * apply endswith_empty in H. contradiction.
      * cbn [PyStr.last_char] in *. exact IH.
Qed.

Lemma endswith_last_char_neq (s suf : string) (a b : ascii) :
  PyStr.last_char s = Some a -> PyStr.last_char suf = Some b -> a <> b ->
  PyStr.endswith s suf = false.
Proof.
  intros Hs Hb Hab. destruct (PyStr.endswith s suf) eqn:E; [|reflexivity].
  apply endswith_last_char in E.
  - congruence.
  - intros ->. discriminate.
Qed.

End StringFacts.

(** ** The file classifier *)

Section Classifier.

Import GitHubAnalyzer.

(** Rewrites to [false] every suffix test that the last character of
    the name, known from [H], rules out. *)
Ltac wrong_last_char H :=
  repeat match goal with
  | |- context [PyStr.endswith ?s ?suf] =>
      rewrite (endswith_last_char_neq s suf _ _ H eq_refl) by discriminate
  end.

Lemma last_char_rules_out (name : string) (a : ascii) :
  PyStr.last_char name = Some a ->
  In a ["E"; "G"; "T"]%char ->
  binary_name name = false /\ code_name name = false.
Proof.
  intros H Ha. unfold binary_name, code_name, binary_patterns, code_patterns.
  cbn [existsb].
  cbn [In] in Ha. destruct Ha as [<-|[<-|[<-|[]]]];
    wrong_last_char H; split; reflexivity.
Qed.

Lemma doc_name_suffix (name ext : string) :
  In ext doc_patterns -> PyStr.endswith name ext = true -> doc_name name = true.
Proof.
  intros Hin H. unfold doc_name.
  apply existsb_exists. exists ext. split; [exact Hin|].
  apply existsb_exists. exists ext. split; [exact Hin|].
  now rewrite H.
Qed.

(** A name that ends with one of the three exact-name patterns is a
    documentation name, and neither a binary nor a code name. *)
Lemma exact_name_suffix (name : string) :
  PyStr.endswith name "LICENSE" || PyStr.endswith name "CONTRIBUTING"
    || PyStr.endswith name "CODE_OF_CONDUCT" = true ->
  binary_name name = false /\ code_name name = false /\ doc_name name = true.
Proof.
  intros H.
  apply orb_true_iff in H as [H|H]; [apply orb_true_iff in H as [H|H]|].
  - pose proof (endswith_last_char _ _ H ltac:(discriminate)) as L.
    destruct (last_char_rules_out name "E" L) as [B C]; [cbn; tauto|].
    repeat split; trivial. apply (doc_name_suffix name "LICENSE"); [cbn; tauto|exact H].
  - pose proof (endswith_last_char _ _ H ltac:(discriminate)) as L.
    destruct (last_char_rules_out name "G" L) as [B C]; [cbn; tauto|].
    repeat split; trivial. apply (doc_name_suffix name "CONTRIBUTING"); [cbn; tauto|exact H].
  - pose proof (endswith_last_char _ _ H ltac:(discriminate)) as L.
    destruct (last_char_rules_out name "T" L) as [B C]; [cbn; tauto|].
    repeat split; trivial. apply (doc_name_suffix name "CODE_OF_CONDUCT"); [cbn; tauto|exact H].
Qed.

(** The lists of [find_loop] only grow. *)
Lemma find_loop_grows self path entries :
  forall code_files doc_files code_files' doc_files',
  find_loop self path entries code_files doc_files = Ok (code_files', doc_files') ->
  incl code_files code_files' /\ incl doc_files doc_files'.
Proof.
  induction entries as [|[rel n] rest IH]; intros c d c' d' H; cbn [find_loop] in H.
  - injection H as <- <-. split; apply incl_refl.
  - destruct (FS.is_file (path ++ rel) n) as [[|]|e]; [|eauto|discriminate].
    destruct (binary_name _); [eauto|].
    destruct (PurePath.relative_to _ _) as [rp|e]; [|discriminate].
    destruct (code_name _).
    { apply IH in H as [H1 H2]. split; [|exact H2].
      intros x Hx. apply H1, in_or_app. now left. }
    destruct (doc_name _); [|eauto].
    apply IH in H as [H1 H2]. split; [exact H1|].
    intros x Hx. apply H2, in_or_app. now left.
Qed.

Lemma origin_cons self path e entries b p :
  origin self path entries b p -> origin self path (e :: entries) b p.
Proof.
  intros (rel & c & rp & H & R). exists rel, c, rp. split; [now right|exact R].
Qed.

Lemma find_loop_sound self path entries :
  forall code_files doc_files code_files' doc_files',
  find_loop self path entries code_files doc_files = Ok (code_files', doc_files') ->
  (forall p, In p code_files' -> In p code_files \/ origin self path entries true p) /\
  (forall p, In p doc_files' -> In p doc_files \/ origin self path entries false p).
Proof.
  induction entries as [|[rel n] rest IH]; intros cf df cf' df' H; cbn [find_loop] in H.
  - injection H as <- <-. split; intros p Hp; now left.
  - assert (Weaken : forall cf0 df0,
      find_loop self path rest cf0 df0 = Ok (cf', df') ->
      (forall p, In p cf0 -> In p cf \/ origin self path ((rel, n) :: rest) true p) ->
      (forall p, In p df0 -> In p df \/ origin self path ((rel, n) :: rest) false p) ->
      (forall p, In p cf' -> In p cf \/ origin self path ((rel, n) :: rest) true p) /\
      (forall p, In p df' -> In p df \/ origin self path ((rel, n) :: rest) false p)).
    { intros cf0 df0 H0 Hc Hd. apply IH in H0 as [H1 H2].
      split; intros p Hp.
      - destruct (H1 p Hp) as [Hin|Ho]; [now apply Hc|right; now apply origin_cons].
      - destruct (H2 p Hp) as [Hin|Ho]; [now apply Hd|right; now apply origin_cons]. }
    destruct n as [c|kids| | |]; cbn [FS.is_file] in H;
      try (apply (Weaken _ _ H); intros p Hp; now left); try discriminate.
    destruct (binary_name _) eqn:B;
      [apply (Weaken _ _ H); intros p Hp; now left|].
    destruct (PurePath.relative_to _ _) as [rp|e] eqn:R; [|discriminate].
    destruct (code_name _) eqn:C.
    { apply (Weaken _ _ H); intros p Hp; [|now left].
      apply in_app_or in Hp as [Hp|[<-|[]]]; [now left|right].
      exists rel, c, rp. repeat split; trivial. now left. }
    destruct (doc_name _) eqn:D;
      [|apply (Weaken _ _ H); intros p Hp; now left].
    apply (Weaken _ _ H); intros p Hp; [now left|].
    apply in_app_or in Hp as [Hp|[<-|[]]]; [now left|right].
    exists rel, c, rp. repeat split; trivial. now left.
Qed.

(** Every regular file that [rglob] yielded and whose name passes the
    three tests as a documentation file is in the doc list. *)
Lemma find_loop_keeps_docs self path entries :
  forall code_files doc_files code_files' doc_files' rel c,
  find_loop self path entries code_files doc_files = Ok (code_files', doc_files') ->
  In (rel, FS.File c) entries ->
  binary_name (PurePath.name (path ++ rel)) = false ->
  code_name (PurePath.name (path ++ rel)) = false ->
  doc_name (PurePath.name (path ++ rel)) = true ->
  exists relative_path,
    PurePath.relative_to (path ++ rel) path = Ok relative_path /\
    In (PurePath.joinpath (PurePath.Path (temp_dir self)) relative_path) doc_files'.
Proof.
  induction entries as [|[rel0 n] rest IH];
    intros cf df cf' df' rel c H Hin B C D; [destruct Hin|].
  cbn [find_loop] in H. destruct Hin as [Heq|Hin].
  - injection Heq as -> ->. cbn [FS.is_file] in H. rewrite B in H.
    destruct (PurePath.relative_to _ _) as [rp|e]; [|discriminate].
    rewrite C, D in H. exists rp. split; [reflexivity|].
    apply find_loop_grows in H as [_ H]. apply H, in_or_app. right. now left.
  - destruct (FS.is_file (path ++ rel0) n) as [[|]|e]; [|eauto|discriminate].
    destruct (binary_name (PurePath.name (path ++ rel0))); [eauto|].
    destruct (PurePath.relative_to (path ++ rel0) path); [|discriminate].
    destruct (code_name (PurePath.name (path ++ rel0))); [eauto|].
    destruct (doc_name (PurePath.name (path ++ rel0))); eauto.
Qed.

(** When [find_files] returns, [rglob] raised nothing and the loop ran
    over what it yields. *)
Lemma find_files_returns self path fs r :
  find_files self path fs = Ok r ->
  find_loop self path (FS.rglob_at fs path) [] [] = Ok r.
Proof.
  unfold find_files, FS.rglob_from.
  destruct (FS.stat_at fs path); trivial. discriminate.
Qed.

End Classifier.

(** ** Paths *)

Section PathFacts.

Import PurePath.

Lemma wf_part_not_root (x : string) : wf_part x = true -> is_root x = false.
Proof.
  unfold wf_part, is_root, PyStr.startswith. intros H.
  apply andb_true_iff in H as [_ H]. apply negb_true_iff in H.
  destruct x as [|c x']; [reflexivity|].
  cbn [PyStr.has_slash] in H. apply orb_false_iff in H as [H _].
  apply Ascii.eqb_neq in H. cbn [String.prefix].
  destruct (ascii_dec "/" c) as [E|E]; [now subst|reflexivity].
Qed.

Lemma wf_rel_not_absolute (p : t) : wf_rel p = true -> is_absolute p = false.
Proof.
  destruct p as [|x p']; [reflexivity|]. cbn [wf_rel forallb is_absolute].
  intros H. apply andb_true_iff in H as [H _]. now apply wf_part_not_root.
Qed.

Lemma strip_prefix_app (pre rel : t) : strip_prefix pre (pre ++ rel) = Some rel.
Proof.
  induction pre as [|a pre IH]; [reflexivity|].
  cbn [strip_prefix app]. now rewrite String.eqb_refl.
Qed.

Lemma strip_prefix_some (pre p rel : t) :
  strip_prefix pre p = Some rel -> p = pre ++ rel.
Proof.
  revert p. induction pre as [|a pre IH]; intros p H.
  - now injection H as ->.
  - destruct p as [|b p']; [discriminate|]. cbn [strip_prefix] in H.
    destruct (a =? b) eqn:E; [|discriminate].
    apply String.eqb_eq in E. subst b. cbn [app]. f_equal. now apply IH.
Qed.

(** A path made by appending proper names to [base] is relative to
    [base], by these names. *)
Lemma relative_to_app (base rel : t) :
  wf_rel rel = true -> relative_to (base ++ rel) base = Ok rel.
Proof.
  intros W. unfold relative_to. destruct base as [|a base'].
  - cbn [app]. now rewrite (wf_rel_not_absolute _ W).
  - now rewrite strip_prefix_app.
Qed.

Lemma joinpath_rel (base rel : t) :
  wf_rel rel = true -> joinpath base rel = base ++ rel.
Proof.
  intros W. unfold joinpath. now rewrite (wf_rel_not_absolute _ W).
Qed.

End PathFacts.

(** ** The file system *)

Section TreeFacts.

Import FS.

Lemma assoc_In (c : string) (kids : list (string * node)) (n : node) :
  assoc c kids = Some n -> In (c, n) kids.
Proof.
  induction kids as [|[k m] r IH]; [discriminate|]. cbn [assoc].
  destruct (k =? c) eqn:E.
  - apply String.eqb_eq in E. intros H. injection H as ->. subst. now left.
  - intros H. right. now apply IH.
Qed.

Lemma wf_names_kid (kids : list (string * node)) (c : string) (n : node) :
  wf_names (Dir kids) = true -> In (c, n) kids ->
  PurePath.wf_part c = true /\ wf_names n = true.
Proof.
  cbn [wf_names]. intros H Hin.
  rewrite forallb_forall in H. apply H in Hin.
  now apply andb_true_iff in Hin.
Qed.

Lemma wf_names_lookup (names : list string) :
  forall fs n, wf_names fs = true -> lookup fs names = Some n -> wf_names n = true.
Proof.
  induction names as [|c rest IH]; intros fs n W H; cbn [lookup] in H.
  - now injection H as <-.
  - destruct fs as [|kids| | |]; try discriminate.
    destruct (assoc c kids) as [ch|] eqn:A; [|discriminate].
    apply assoc_In in A. apply (wf_names_kid _ _ _ W) in A as [_ A]. eauto.
Qed.

(** What [rglob] yields below a well-formed tree is named by proper,
    non-empty relative paths. *)
Lemma rglob_wf (n : node) :
  wf_names n = true ->
  forall rel m, In (rel, m) (rglob n) -> rel <> [] /\ PurePath.wf_rel rel = true.
Proof.
  induction n as [c|kids IH| | |] using node_induction;
    intros W rel m Hin; try (now destruct Hin).
  cbn [rglob] in Hin. apply in_app_or in Hin as [Hin|Hin].
  - apply in_map_iff in Hin as ([k ch] & Heq & Hk). injection Heq as <- <-.
    apply (wf_names_kid _ _ _ W) in Hk as [Hk _].
    split; [discriminate|]. cbn. now rewrite Hk.
  - apply in_flat_map in Hin as ([k ch] & Hk & Hin).
    apply in_map_iff in Hin as ([rel' m'] & Heq & Hin). injection Heq as <- <-.
    rewrite Forall_forall in IH. specialize (IH _ Hk).
    apply (wf_names_kid _ _ _ W) in Hk as [Hk Wch].
    destruct (IH Wch _ _ Hin) as [_ Wrel].
    split; [discriminate|]. cbn [PurePath.wf_rel forallb fst] in *.
    now rewrite Hk.
Qed.

Lemma rglob_at_wf (fs : node) (path : PurePath.t) :
  wf_names fs = true ->
  forall rel m, In (rel, m) (rglob_at fs path) ->
  rel <> [] /\ PurePath.wf_rel rel = true.
Proof.
  intros W rel m. unfold rglob_at, at_path.
  destruct (lookup fs (resolve path)) as [n|] eqn:L; [|now intros []].
  apply rglob_wf. eapply wf_names_lookup; eauto.
Qed.

End TreeFacts.

(** ** Claims about [find_files] *)

Section FindFiles.

Import GitHubAnalyzer.

(** C2. An entry below [path] whose name ends with a binary suffix is
    in neither list that [find_files] returns, however deep it lies and
    whatever other suffix its name ends with: the binary test comes
    first. *)
Theorem find_files_excludes_binary
    (self : GitHubAnalyzer.t) (path : PurePath.t) (fs : FS.node)
    (code_files doc_files : list PurePath.t) (rel : list string) (n : FS.node) :
  wf_names fs = true ->
  find_files self path fs = Ok (code_files, doc_files) ->
  In (rel, n) (FS.rglob_at fs path) ->
  binary_name (PurePath.name (path ++ rel)) = true ->
  let temp_dir_path := PurePath.joinpath (PurePath.Path (temp_dir self)) rel in
  ~ In temp_dir_path code_files /\ ~ In temp_dir_path doc_files.
Proof.
  intros W H Hin B temp_dir_path. subst temp_dir_path.
  destruct (rglob_at_wf fs path W _ _ Hin) as [_ Wrel].
  apply find_files_returns, find_loop_sound in H as [Hc Hd].
  assert (No : forall b,
    ~ origin self path (FS.rglob_at fs path) b
        (PurePath.joinpath (PurePath.Path (temp_dir self)) rel)).
  { intros b (rel' & c & rp & Hin' & B' & R & Heq & _).
    destruct (rglob_at_wf fs path W _ _ Hin') as [_ Wrel'].
    rewrite (relative_to_app _ _ Wrel') in R. injection R as <-.
    rewrite !joinpath_rel in Heq by assumption.
    apply app_inv_head in Heq. subst rel'. congruence. }
  split; intros Hp.
  - destruct (Hc _ Hp) as [[]|Ho]. exact (No _ Ho).
  - destruct (Hd _ Hp) as [[]|Ho]. exact (No _ Ho).
Qed.

Lemma find_files_excludes_binary_witness :
  wf_names Scenario.fs_cloned = true /\
  In (["assets"; "img"; "logo.png"], FS.File (FS.Undecodable
        "'utf-8' codec can't decode byte 0x89 in position 0: invalid start byte"))
     (FS.rglob_at Scenario.fs_cloned Scenario.workspace) /\
  ~ In ["/"; "tmp"; "w"; "assets"; "img"; "logo.png"]
       [["/"; "tmp"; "w"; "src"; "main.py"]] /\
  ~ In ["/"; "tmp"; "w"; "assets"; "img"; "logo.png"]
       [["/"; "tmp"; "w"; "README.md"]; ["/"; "tmp"; "w"; "MIT-LICENSE"]].
Proof.
  assert (W : wf_names Scenario.fs_cloned = true) by reflexivity.
  assert (I : In (["assets"; "img"; "logo.png"], FS.File (FS.Undecodable
        "'utf-8' codec can't decode byte 0x89 in position 0: invalid start byte"))
     (FS.rglob_at Scenario.fs_cloned Scenario.workspace))
    by (vm_compute; tauto).
  split; [exact W|]. split; [exact I|].
  exact (find_files_excludes_binary Scenario.me Scenario.workspace
           Scenario.fs_cloned _ _ _ _ W eq_refl I eq_refl).
Defined.

(** C10. A regular file below [path] whose name ends with [LICENSE],
    [CONTRIBUTING] or [CODE_OF_CONDUCT], equal to it or not, is put in
    the doc list: the suffix test runs over every member of the doc
    set. *)
Theorem find_files_exact_name_suffix_is_doc
    (self : GitHubAnalyzer.t) (path : PurePath.t) (fs : FS.node)
    (code_files doc_files : list PurePath.t) (rel : list string) (c : FS.content) :
  find_files self path fs = Ok (code_files, doc_files) ->
  In (rel, FS.File c) (FS.rglob_at fs path) ->
  PyStr.endswith (PurePath.name (path ++ rel)) "LICENSE"
    || PyStr.endswith (PurePath.name (path ++ rel)) "CONTRIBUTING"
    || PyStr.endswith (PurePath.name (path ++ rel)) "CODE_OF_CONDUCT" = true ->
  exists relative_path,
    PurePath.relative_to (path ++ rel) path = Ok relative_path /\
    In (PurePath.joinpath (PurePath.Path (temp_dir self)) relative_path) doc_files.
Proof.
  intros H Hin S. apply exact_name_suffix in S as (B & C & D).
  exact (find_loop_keeps_docs self path _ _ _ _ _ rel c
           (find_files_returns _ _ _ _ H) Hin B C D).
Qed.

Lemma find_files_exact_name_suffix_is_doc_witness :
  "MIT-LICENSE" <> "LICENSE" /\
  exists relative_path,
    PurePath.relative_to (Scenario.workspace ++ ["MIT-LICENSE"]) Scenario.workspace
      = Ok relative_path /\
    In (PurePath.joinpath (PurePath.Path (GitHubAnalyzer.temp_dir Scenario.me))
          relative_path)
       [["/"; "tmp"; "w"; "README.md"]; ["/"; "tmp"; "w"; "MIT-LICENSE"]].
Proof.
  split; [discriminate|].
  apply (find_files_exact_name_suffix_is_doc Scenario.me Scenario.workspace
           Scenario.fs_cloned [["/"; "tmp"; "w"; "src"; "main.py"]] _
           ["MIT-LICENSE"] (FS.Text "Permission is hereby granted")).
  - reflexivity.
  - vm_compute. tauto.
  - reflexivity.
Defined.

End FindFiles.

(** ** Claims about [generate_file_tree] *)

Section FileTree.

Import GitHubAnalyzer.

Lemma set_no_empty (k : string) (v : ftree) (tree : Dict.t ftree) :
  no_empty_dirs tree = true -> no_empty_value v = true ->
  no_empty_dirs (Dict.set k v tree) = true.
Proof.
  unfold no_empty_dirs. intros Ht Hv.
  induction tree as [|[k' v'] r IH]; cbn [Dict.set forallb snd] in *.
  - now rewrite Hv.
  - apply andb_true_iff in Ht as [H1 H2].
    destruct (k' =? k); cbn [forallb snd].
    + now rewrite Hv, H2.
    + now rewrite H1, IH.
Qed.

(** The loop keeps the invariant when the recursive calls establish it. *)
Lemma tree_loop_no_empty (build : PurePath.t -> FS.node -> Dict.t ftree)
    (path : PurePath.t) (items : list (string * FS.node)) :
  Forall (fun kv => forall p, no_empty_dirs (build p (snd kv)) = true) items ->
  forall tree, no_empty_dirs tree = true ->
  no_empty_dirs (tree_loop build path items tree) = true.
Proof.
  induction 1 as [|[item_name child] rest Hchild _ IH]; intros tree Ht;
    cbn [tree_loop]; [exact Ht|].
  destruct (PyStr.startswith item_name "."); [now apply IH|].
  destruct (FS.is_file _ child) as [[|]|e]; [|..|exact Ht].
  - apply IH, set_no_empty; trivial.
  - destruct (FS.is_dir _ child) as [[|]|e]; [|now apply IH|exact Ht].
    destruct (Dict.truthy _) eqn:T; [|now apply IH].
    apply IH, set_no_empty; trivial.
    cbn [no_empty_value]. rewrite T. apply (Hchild (path ++ [item_name])).
Qed.

Lemma _build_tree_no_empty (n : FS.node) :
  forall path, no_empty_dirs (_build_tree path n) = true.
Proof.
  induction n as [c|kids IH| | |] using node_induction; intros path;
    try reflexivity.
  cbn [_build_tree]. now apply tree_loop_no_empty.
Qed.

(** C5. At no depth does the tree that [generate_file_tree] returns map
    a directory to an empty dict: a directory whose own tree is empty
    gets no entry in the tree of its parent. *)
Theorem generate_file_tree_no_empty_dirs (path : PurePath.t) (fs : FS.node) :
  no_empty_dirs (generate_file_tree path fs) = true.
Proof.
  unfold generate_file_tree.
  destruct (FS.at_path fs path); [apply _build_tree_no_empty|reflexivity].
Qed.

(** A directory that cannot be listed leaves the loop as if it were not
    among the entries. *)
Lemma tree_loop_skips_unlistable (path : PurePath.t) (name : string)
    (before after : list (string * FS.node)) :
  forall tree,
  tree_loop _build_tree path (before ++ (name, FS.NoList) :: after) tree
  = tree_loop _build_tree path (before ++ after) tree.
Proof.
  induction before as [|[item_name child] rest IH]; intros tree;
    cbn [tree_loop app].
  - destruct (PyStr.startswith name "."); reflexivity.
  - destruct (PyStr.startswith item_name "."); [apply IH|].
    destruct (FS.is_file _ child) as [[|]|e]; [apply IH| |reflexivity].
    destruct (FS.is_dir _ child) as [[|]|e]; [|apply IH|reflexivity].
    destruct (Dict.truthy _); apply IH.
Qed.

(** C6. When listing a directory raises, the tree of that directory is
    empty, whether it is the directory [generate_file_tree] starts from
    or one met on the way; in the second case the parent carries on with
    its other entries, as if the directory were not there. *)
Theorem enumeration_error_is_local :
  (forall path fs e,
     FS.iterdir path (FS.at_path fs path) = Raise e ->
     generate_file_tree path fs = []) /\
  (forall path n e,
     FS.iterdir path (Some n) = Raise e -> _build_tree path n = []) /\
  (forall parent name n before after e,
     FS.is_dir (parent ++ [name]) n = Ok true ->
     FS.iterdir (parent ++ [name]) (Some n) = Raise e ->
     _build_tree parent (FS.Dir (before ++ (name, n) :: after))
     = _build_tree parent (FS.Dir (before ++ after))).
Proof.
  assert (Local : forall path n e,
    FS.iterdir path (Some n) = Raise e -> _build_tree path n = []).
  { intros path [c|kids| | |] e H; try reflexivity. discriminate. }
  split; [|split; [exact Local|]].
  - intros path fs e H. unfold generate_file_tree.
    destruct (FS.at_path fs path) as [n|]; [eauto|reflexivity].
  - intros parent name [c|kids| | |] before after e D H; try discriminate.
    cbn [_build_tree]. apply tree_loop_skips_unlistable.
Qed.

Lemma enumeration_error_is_local_witness :
  generate_file_tree ["/"; "tmp"; "w"; "private"] Scenario.fs_cloned = [] /\
  _build_tree ["/"; "tmp"; "w"; "private"] FS.NoList = [] /\
  _build_tree ["/"; "tmp"; "w"]
    (FS.Dir [("private", FS.NoList); ("README.md", FS.File (FS.Text "# Title"))])
  = [("README.md", Leaf "/tmp/w/README.md")].
Proof.
  destruct enumeration_error_is_local as (Top & Sub & Parent).
  split; [|split].
  - apply (Top ["/"; "tmp"; "w"; "private"] Scenario.fs_cloned
             (FS.EACCES ["/"; "tmp"; "w"; "private"])).
    reflexivity.
  - apply (Sub ["/"; "tmp"; "w"; "private"] FS.NoList
             (FS.EACCES ["/"; "tmp"; "w"; "private"])).
    reflexivity.
  - exact (eq_trans
             (Parent ["/"; "tmp"; "w"] "private" FS.NoList []
                [("README.md", FS.File (FS.Text "# Title"))]
                (FS.EACCES ["/"; "tmp"; "w"; "private"]) eq_refl eq_refl)
             eq_refl).
Defined.

End FileTree.

(** ** Dicts *)

Section DictFacts.

Context {V : Type}.

Lemma get_set_same (k : string) (v : V) (d : Dict.t V) :
  Dict.get k (Dict.set k v d) = Some v.
Proof.
  induction d as [|[k' v'] r IH]; cbn [Dict.set Dict.get].
  - now rewrite String.eqb_refl.
  - destruct (k' =? k) eqn:E; cbn [Dict.get]; now rewrite E.
Qed.

Lemma get_set_other (k k' : string) (v : V) (d : Dict.t V) :
  k <> k' -> Dict.get k' (Dict.set k v d) = Dict.get k' d.
Proof.
  intros Hne. induction d as [|[k0 v0] r IH]; cbn [Dict.set Dict.get].
  - apply String.eqb_neq in Hne. now rewrite Hne.
  - destruct (k0 =? k) eqn:E; cbn [Dict.get].
    + apply String.eqb_eq in E. subst k0.
      apply String.eqb_neq in Hne. now rewrite Hne.
    + now rewrite IH.
Qed.

Lemma keys_set (k : string) (v : V) (d : Dict.t V) (x : string) :
  In x (Dict.keys (Dict.set k v d)) <-> x = k \/ In x (Dict.keys d).
Proof.
  unfold Dict.keys. induction d as [|[k0 v0] r IH]; cbn [Dict.set map fst In].
  - intuition.
  - destruct (k0 =? k) eqn:E; cbn [map fst In].
    + apply String.eqb_eq in E. subst k0. intuition.
    + rewrite IH. intuition.
Qed.

(** Assignment keeps the keys of a dict distinct. *)
Lemma set_NoDup (k : string) (v : V) (d : Dict.t V) :
  NoDup (Dict.keys d) -> NoDup (Dict.keys (Dict.set k v d)).
Proof.
  unfold Dict.keys. induction d as [|[k0 v0] r IH]; intros H;
    cbn [Dict.set map fst].
  - constructor; [intros []|constructor].
  - inversion H as [|? ? Hnotin Hr]; subst.
    destruct (k0 =? k) eqn:E; cbn [map fst].
    + now constructor.
    + constructor; [|now apply IH].
      intros Hin. apply (keys_set k v r k0) in Hin as [->|Hin].
      * now rewrite String.eqb_refl in E.
      * now apply Hnotin.
Qed.

End DictFacts.

(** ** Removal of entries *)

Section Removal.

Import FS.

Lemma assoc_filter_out (c : string) (kids : list (string * node)) :
  assoc c (filter (fun kv => negb (fst kv =? c)) kids) = None.
Proof.
  induction kids as [|[k n] r IH]; [reflexivity|]. cbn [filter fst].
  destruct (k =? c) eqn:E; cbn [negb]; [exact IH|].
  cbn [assoc]. now rewrite E.
Qed.

Lemma assoc_map_at (c : string) (g : node -> node) (kids : list (string * node)) :
  assoc c (map (fun kv => if fst kv =? c then (fst kv, g (snd kv)) else kv) kids)
  = option_map g (assoc c kids).
Proof.
  induction kids as [|[k n] r IH]; [reflexivity|]. cbn [map fst snd].
  destruct (k =? c) eqn:E; cbn [assoc]; rewrite E; [reflexivity|exact IH].
Qed.

(** Nothing is found where an entry was removed. *)
Lemma lookup_remove_at (names : list string) :
  names <> [] -> forall n, lookup (remove_at names n) names = None.
Proof.
  induction names as [|c rest IH]; intros Hne n; [contradiction|].
  destruct rest as [|c' rest'].
  - cbn [remove_at]. destruct n as [?|kids| | |]; try reflexivity.
    cbn [lookup]. now rewrite assoc_filter_out.
  - change (remove_at (c :: c' :: rest') n) with
      (match n with
       | Dir kids =>
           Dir (map (fun kv => if fst kv =? c
                               then (fst kv, remove_at (c' :: rest') (snd kv))
                               else kv) kids)
       | _ => n
       end).
    destruct n as [?|kids| | |]; try reflexivity.
    cbn [lookup]. rewrite assoc_map_at.
    destruct (assoc c kids) as [ch|]; [|reflexivity].
    cbn [option_map]. apply IH. discriminate.
Qed.

(** A successful [unlink] leaves nothing at the path. *)
Lemma unlink_gone (E : OS.env) (p : PurePath.t) (fs fs' : node) :
  OS.unlink E p fs = Ok fs' -> exists_ fs' p = false.
Proof.
  unfold OS.unlink, exists_, at_path.
  destruct (lookup fs (resolve p)) as [[?|?| | |]|]; try discriminate;
    (destruct (resolve p) as [|nm names] eqn:R; [discriminate|];
     destruct (OS.removable E p); [|discriminate];
     intros H;
     replace fs' with (remove_at (nm :: names) fs) by congruence;
     rewrite lookup_remove_at; [reflexivity|discriminate]).
Qed.

(** A permitted [rmtree] of a directory leaves nothing at the path. *)
Lemma rmtree_gone (E : OS.env) (p : PurePath.t) (fs : node) kids :
  at_path fs p = Some (Dir kids) -> resolve p <> [] -> OS.removable E p = true ->
  exists_ (OS.rmtree_ignore_errors E p fs) p = false.
Proof.
  unfold OS.rmtree_ignore_errors, exists_, at_path. intros -> Hne ->.
  destruct (resolve p) as [|c names]; [contradiction|].
  now rewrite lookup_remove_at.
Qed.

End Removal.

(** ** One iteration of [generate_file_prompts] *)

Section PromptStep.

Import GitHubAnalyzer.

Variable self : GitHubAnalyzer.t.
Variable E : OS.env.

(** What [stat] finds is in the tree, and what it misses is not. *)
Lemma stat_lookup (names : list string) :
  forall n,
  match FS.stat n names with
  | FS.Found m => FS.lookup n names = Some m
  | FS.Absent => FS.lookup n names = None
  | FS.Refused => True
  end.
Proof.
  induction names as [|c rest IH]; intros n; cbn [FS.stat FS.lookup].
  - destruct n; trivial.
  - destruct n as [?|kids| | |]; trivial.
    destruct (FS.assoc c kids) as [ch|]; [apply IH|].
    destruct (existsb FS.refuses kids); trivial.
Qed.

Lemma Path_exists_answer (fs : FS.node) (p : PurePath.t) (b : bool) :
  FS.Path_exists fs p = Ok b -> FS.exists_ fs p = b.
Proof.
  unfold FS.Path_exists, FS.exists_, FS.at_path, FS.stat_at.
  pose proof (stat_lookup (FS.resolve p) fs) as L.
  destruct (FS.stat fs (FS.resolve p)); [| |discriminate];
    intros H; injection H as <-; now rewrite L.
Qed.


(** Past the [mkdir], an iteration whose [finally] clause completes
    returns: it records the attempt and cleans up. *)
Lemma process_file_attempt (file_path : PurePath.t) (fs fs0 fs1 fs2 : FS.node)
    (prompts : Dict.t string) (a : attempt) :
  FS.mkdir_parents (PurePath.parent (output_file_of self file_path)) fs = Ok fs0 ->
  render E file_path (output_file_of self file_path) fs0 = (a, fs1) ->
  cleanup_output E (output_file_of self file_path) fs1 = Ok fs2 ->
  process_file self E file_path fs prompts
  = (Ok (record (key_of self file_path) a prompts), fs2).
Proof.
  intros M R C. unfold process_file. now rewrite M, R, C.
Qed.

Lemma prompt_loop_step (file_path : PurePath.t) (rest : list PurePath.t)
    (fs fs' : FS.node) (prompts prompts' : Dict.t string) :
  process_file self E file_path fs prompts = (Ok prompts', fs') ->
  prompt_loop self E (file_path :: rest) fs prompts
  = prompt_loop self E rest fs' prompts'.
Proof.
  intros H. cbn [prompt_loop]. now rewrite H.
Qed.

Lemma process_file_records (file_path : PurePath.t) (fs fs' : FS.node)
    (prompts prompts' : Dict.t string) :
  process_file self E file_path fs prompts = (Ok prompts', fs') ->
  exists a, prompts' = record (key_of self file_path) a prompts.
Proof.
  unfold process_file.
  destruct (FS.mkdir_parents _ fs) as [fs0|e]; [|discriminate].
  destruct (render E file_path _ fs0) as [a fs1].
  destruct (cleanup_output E _ fs1) as [fs2|e]; [|discriminate].
  intros H. injection H as <- _. now exists a.
Qed.

Lemma record_get_other (key k : string) (a : attempt) (prompts : Dict.t string) :
  key <> k -> Dict.get k (record key a prompts) = Dict.get k prompts.
Proof.
  intros Hne. destruct a as [v| |e]; cbn [record]; [|reflexivity|].
  - now apply get_set_other.
  - destruct (negb (binary_marker e)); [now apply get_set_other|reflexivity].
Qed.

Lemma record_NoDup (key : string) (a : attempt) (prompts : Dict.t string) :
  NoDup (Dict.keys prompts) -> NoDup (Dict.keys (record key a prompts)).
Proof.
  intros H. destruct a as [v| |e]; cbn [record]; [|exact H|].
  - now apply set_NoDup.
  - destruct (negb (binary_marker e)); [now apply set_NoDup|exact H].
Qed.

Lemma prompt_loop_NoDup (file_paths : list PurePath.t) :
  forall fs fs' prompts prompts',
  prompt_loop self E file_paths fs prompts = (Ok prompts', fs') ->
  NoDup (Dict.keys prompts) -> NoDup (Dict.keys prompts').
Proof.
  induction file_paths as [|f rest IH]; intros fs fs' m m' H N; cbn [prompt_loop] in H.
  - now injection H as <- _.
  - destruct (process_file self E f fs m) as [[m1|e] fs1] eqn:P; [|discriminate].
    apply process_file_records in P as [a ->].
    eapply IH; [exact H|]. now apply record_NoDup.
Qed.

(** Files with other keys leave the entry of a key as it is. *)
Lemma prompt_loop_get_other (k : string) (file_paths : list PurePath.t) :
  Forall (fun g => key_of self g <> k) file_paths ->
  forall fs fs' prompts prompts',
  prompt_loop self E file_paths fs prompts = (Ok prompts', fs') ->
  Dict.get k prompts' = Dict.get k prompts.
Proof.
  induction 1 as [|g rest Hg _ IH]; intros fs fs' m m' H; cbn [prompt_loop] in H.
  - now injection H as <- _.
  - destruct (process_file self E g fs m) as [[m1|e] fs1] eqn:P; [|discriminate].
    apply process_file_records in P as [a ->].
    rewrite (IH _ _ _ _ H). now apply record_get_other.
Qed.

End PromptStep.

(** ** Claims about one file of [generate_file_prompts] *)

Section PromptClaims.

Import GitHubAnalyzer.




(** X17. Without the tool, a file whose raw content does not decode
    as UTF-8 leaves the map as it was; when the [finally] clause
    completes, the loop goes on with the next file, and called on this
    file alone the method returns an empty map. *)
Theorem undecodable_file_is_skipped
    (self : GitHubAnalyzer.t) (E : OS.env) (file_path : PurePath.t)
    (fs fs0 fs1 fs2 : FS.node) (prompts : Dict.t string) (e0 e : exn) :
  let output_file := output_file_of self file_path in
  FS.mkdir_parents (PurePath.parent output_file) fs = Ok fs0 ->
  OS.subprocess_run E (code2prompt file_path output_file) fs0 = (OS.Raised e0, fs1) ->
  is_FileNotFoundError e0 = true ->
  FS.read_text fs1 file_path = Raise e ->
  is_UnicodeDecodeError e = true ->
  cleanup_output E output_file fs1 = Ok fs2 ->
  process_file self E file_path fs prompts = (Ok prompts, fs2) /\
  (forall rest,
     prompt_loop self E (file_path :: rest) fs prompts
     = prompt_loop self E rest fs2 prompts) /\
  fst (generate_file_prompts self E [file_path] fs) = Ok [].
Proof.
  intros output_file M Run F0 T U C.
  assert (R : render E file_path output_file fs0 = (Skipped, fs1)).
  { unfold render, handle. rewrite Run, F0. unfold read_raw. now rewrite T, U. }
  assert (P : forall m, process_file self E file_path fs m = (Ok m, fs2)).
  { intros m. exact (process_file_attempt self E file_path fs fs0 fs1 fs2 m _ M R C). }
  split; [apply P|]. split.
  - intros rest. apply prompt_loop_step, P.
  - unfold generate_file_prompts. cbn [prompt_loop]. now rewrite P.
Qed.

Lemma undecodable_file_is_skipped_witness :
  process_file Scenario.me Scenario.env_plain PromptScenario.blob_py
    PromptScenario.fs_blob []
    = (Ok [], PromptScenario.fs_blob) /\
  generate_file_prompts Scenario.me Scenario.env_plain
    [PromptScenario.blob_py; PromptScenario.ok_py] PromptScenario.fs_blob
    = (Ok [("ok.py", "pass")], PromptScenario.fs_blob) /\
  fst (generate_file_prompts Scenario.me Scenario.env_plain
         [PromptScenario.blob_py] PromptScenario.fs_blob) = Ok [].
Proof.
  destruct (undecodable_file_is_skipped Scenario.me Scenario.env_plain
              PromptScenario.blob_py PromptScenario.fs_blob PromptScenario.fs_blob
              PromptScenario.fs_blob PromptScenario.fs_blob []
              Scenario.not_installed
              (Exn UnicodeDecodeError
                 "'utf-8' codec can't decode byte 0xff in position 0: invalid start byte")
              eq_refl eq_refl eq_refl eq_refl eq_refl eq_refl) as (P & L & G).
  split; [exact P|]. split; [|exact G].
  unfold generate_file_prompts. rewrite (L [PromptScenario.ok_py]). reflexivity.
Defined.

(** C4 at an input where the code misses it.  The workspace is a
    directory that cannot be entered, the tool is not installed, and
    the first of two files outside the workspace does not decode: the
    file is skipped by [continue], then the test [exists()] of the
    [finally] clause, which no [try] guards, raises, and the method
    ends with that error instead of going on with the second file. *)
Lemma undecodable_file_then_refused_stat_raises :
  FS.read_text MarkerScenario.fs_closed_workspace MarkerScenario.data_blob_py
    = Raise (Exn UnicodeDecodeError
               "'utf-8' codec can't decode byte 0xff in position 0: invalid start byte") /\
  FS.mkdir_parents
    (PurePath.parent (output_file_of Scenario.me MarkerScenario.data_blob_py))
    MarkerScenario.fs_closed_workspace = Ok MarkerScenario.fs_closed_workspace /\
  generate_file_prompts Scenario.me Scenario.env_plain
    [MarkerScenario.data_blob_py; MarkerScenario.data_ok_py]
    MarkerScenario.fs_closed_workspace
  = (Raise (FS.EACCES ["/"; "tmp"; "w"; "blob.py.prompt.txt"]),
     MarkerScenario.fs_closed_workspace).
Proof.
  repeat split.
Qed.



End PromptClaims.

(** ** The output file of the tool *)

Section RenderedOutput.

Import GitHubAnalyzer.

Lemma universal_newlines_no_cr (s : string) :
  PyStr.has_cr s = false -> PyStr.universal_newlines s = s.
Proof.
  induction s as [|c s IH]; [reflexivity|].
  cbn [PyStr.has_cr PyStr.universal_newlines]. intros H.
  apply orb_false_iff in H as [Hc H]. rewrite Hc. now rewrite IH.
Qed.

(** C8, as the code has it.  When the tool ran, exited with status 0
    and wrote an output file that decodes as UTF-8, the iteration
    assigns to the key of the file the text read in text mode, line
    ends translated, which is the content itself when it holds no
    carriage return.  It then tries to remove the output file: once
    removed it is no longer there, and a removal that fails is
    swallowed, the file staying where it is.  Called on this file alone,
    the method returns the map with this single entry. *)
Theorem rendered_output_is_stored
    (self : GitHubAnalyzer.t) (E : OS.env) (file_path : PurePath.t)
    (fs fs0 fs1 : FS.node) (prompts : Dict.t string) (stdout raw : string) :
  let key := key_of self file_path in
  let output_file := output_file_of self file_path in
  let text := PyStr.universal_newlines raw in
  FS.mkdir_parents (PurePath.parent output_file) fs = Ok fs0 ->
  OS.subprocess_run E (code2prompt file_path output_file) fs0
    = (OS.Returned stdout, fs1) ->
  FS.stat_at fs1 output_file = FS.Found (FS.File (FS.Text raw)) ->
  exists fs2,
    process_file self E file_path fs prompts
      = (Ok (Dict.set key text prompts), fs2) /\
    Dict.get key (Dict.set key text prompts) = Some text /\
    (PyStr.has_cr raw = false -> text = raw) /\
    generate_file_prompts self E [file_path] fs = (Ok [(key, text)], fs2) /\
    (forall fs', OS.unlink E output_file fs1 = Ok fs' ->
       fs2 = fs' /\ FS.exists_ fs2 output_file = false) /\
    (forall e, OS.unlink E output_file fs1 = Raise e -> fs2 = fs1).
Proof.
  intros key output_file text M Run S.
  assert (X : FS.Path_exists fs1 output_file = Ok true)
    by (unfold FS.Path_exists; now rewrite S).
  assert (T : FS.read_text fs1 output_file = Ok text)
    by (unfold FS.read_text; now rewrite S).
  assert (R : render E file_path output_file fs0 = (Stored text, fs1)).
  { unfold render. now rewrite Run, X, T. }
  assert (C : exists fs2,
    cleanup_output E output_file fs1 = Ok fs2 /\
    (forall fs', OS.unlink E output_file fs1 = Ok fs' ->
       fs2 = fs' /\ FS.exists_ fs2 output_file = false) /\
    (forall e, OS.unlink E output_file fs1 = Raise e -> fs2 = fs1)).
  { unfold cleanup_output. rewrite X.
    destruct (OS.unlink E output_file fs1) as [fs'|e] eqn:U.
    - exists fs'. split; [reflexivity|]. split; [|discriminate].
      intros ? [= <-]. split; [reflexivity|]. eapply unlink_gone, U.
    - exists fs1. split; [reflexivity|]. split; [discriminate|trivial]. }
  destruct C as (fs2 & C & Gone & Kept).
  assert (P : forall m, process_file self E file_path fs m
                = (Ok (Dict.set key text m), fs2)).
  { intros m. exact (process_file_attempt self E file_path fs fs0 fs1 fs2 m _ M R C). }
  exists fs2.
  split; [apply P|]. split; [apply get_set_same|].
  split; [apply universal_newlines_no_cr|]. split; [|split; assumption].
  unfold generate_file_prompts. cbn [prompt_loop]. now rewrite P.
Qed.

Lemma rendered_output_is_stored_witness :
  exists fs2,
    process_file Scenario.me PromptScenario.env_writes PromptScenario.main_py
      PromptScenario.fs_source []
      = (Ok [("src/main.py", "PROMPT print(1)")], fs2) /\
    generate_file_prompts Scenario.me PromptScenario.env_writes
      [PromptScenario.main_py] PromptScenario.fs_source
      = (Ok [("src/main.py", "PROMPT print(1)")], fs2) /\
    fs2 = PromptScenario.fs_source /\
    FS.exists_ fs2 PromptScenario.main_py_out = false.
Proof.
  destruct (rendered_output_is_stored Scenario.me PromptScenario.env_writes
              PromptScenario.main_py PromptScenario.fs_source
              PromptScenario.fs_source PromptScenario.fs_rendered []
              "" "PROMPT print(1)" eq_refl eq_refl eq_refl)
    as (fs2 & P & _ & _ & G & U & _).
  exists fs2. split; [exact P|]. split; [exact G|].
  exact (U PromptScenario.fs_source eq_refl).
Defined.

(** C8 as stated fails in three ways.  The output file cannot be
    removed: the text is stored and the file is still there when
    [generate_file_prompts] has returned.  The output file holds a
    carriage return before a line feed: what is stored is not its
    content.  The output file does not decode as UTF-8: the error text
    is stored. *)
Lemma output_file_may_remain :
  (OS.subprocess_run PromptScenario.env_writes_protected
     (code2prompt PromptScenario.main_py
        (output_file_of Scenario.me PromptScenario.main_py))
     PromptScenario.fs_source
   = (OS.Returned "", PromptScenario.fs_rendered) /\
   output_file_of Scenario.me PromptScenario.main_py = PromptScenario.main_py_out /\
   exists fs',
     generate_file_prompts Scenario.me PromptScenario.env_writes_protected
       [PromptScenario.main_py] PromptScenario.fs_source
     = (Ok [("src/main.py", "PROMPT print(1)")], fs') /\
     FS.exists_ fs' PromptScenario.main_py_out = true) /\
  (FS.stat_at MarkerScenario.fs_rendered_crlf PromptScenario.main_py_out
   = FS.Found (FS.File (FS.Text MarkerScenario.crlf_text)) /\
   generate_file_prompts Scenario.me MarkerScenario.env_writes_crlf
     [PromptScenario.main_py] PromptScenario.fs_source
   = (Ok [("src/main.py", MarkerScenario.lf_text)], PromptScenario.fs_source) /\
   MarkerScenario.lf_text <> MarkerScenario.crlf_text) /\
  (FS.stat_at MarkerScenario.fs_rendered_blob PromptScenario.main_py_out
   = FS.Found (FS.File (FS.Undecodable MarkerScenario.bad_start)) /\
   generate_file_prompts Scenario.me MarkerScenario.env_writes_blob
     [PromptScenario.main_py] PromptScenario.fs_source
   = (Ok [("src/main.py",
           error_text (Exn UnicodeDecodeError MarkerScenario.bad_start))],
      PromptScenario.fs_source)).
Proof.
  split; [|split].
  - repeat split. exists PromptScenario.fs_rendered. split; reflexivity.
  - repeat split. discriminate.
  - repeat split.
Qed.

End RenderedOutput.

(** ** Keys *)

Section Keys.

Import PurePath.

Lemma has_slash_app (a x : string) :
  PyStr.has_slash (a ++ String "/" x) = true.
Proof.
  induction a as [|c a IH]; cbn [append PyStr.has_slash].
  - reflexivity.
  - rewrite IH. apply orb_true_r.
Qed.

(** Two strings cut at their first slash agree on both sides of it. *)
Lemma first_slash_inj (a b x y : string) :
  PyStr.has_slash a = false -> PyStr.has_slash b = false ->
  (a ++ String "/" x)%string = (b ++ String "/" y)%string -> a = b /\ x = y.
Proof.
  revert b. induction a as [|c a IH]; intros [|d b] Ha Hb H;
    cbn [append PyStr.has_slash] in *.
  - injection H as ->. now split.
  - injection H as <- _. discriminate.
  - injection H as -> _. discriminate.
  - injection H as -> H.
    apply orb_false_iff in Ha as [_ Ha]. apply orb_false_iff in Hb as [_ Hb].
    destruct (IH b Ha Hb H) as [-> ->]. now split.
Qed.

Lemma join_cons2 (a b : string) (l : list string) :
  PyStr.join_slash (a :: b :: l)
  = (a ++ String "/" (PyStr.join_slash (b :: l)))%string.
Proof. reflexivity. Qed.

Lemma wf_part_no_slash (x : string) :
  wf_part x = true -> PyStr.has_slash x = false.
Proof.
  unfold wf_part. intros H. apply andb_true_iff in H as [_ H].
  now apply negb_true_iff in H.
Qed.

(** ['/'.join] is injective on non-empty lists of proper names. *)
Lemma join_slash_inj (l1 : list string) :
  forall l2, wf_rel l1 = true -> wf_rel l2 = true -> l1 <> [] -> l2 <> [] ->
  PyStr.join_slash l1 = PyStr.join_slash l2 -> l1 = l2.
Proof.
  induction l1 as [|a l1 IH]; intros l2 W1 W2 N1 N2 H; [contradiction|].
  destruct l2 as [|b l2]; [contradiction|].
  cbn [wf_rel forallb] in W1, W2.
  apply andb_true_iff in W1 as [Wa W1]. apply andb_true_iff in W2 as [Wb W2].
  apply wf_part_no_slash in Wa, Wb.
  destruct l1 as [|a' l1], l2 as [|b' l2].
  - cbn in H. now subst.
  - rewrite join_cons2 in H. change (PyStr.join_slash [a]) with a in H.
    subst a. now rewrite has_slash_app in Wa.
  - rewrite join_cons2 in H. change (PyStr.join_slash [b]) with b in H.
    subst b. now rewrite has_slash_app in Wb.
  - rewrite !join_cons2 in H.
    apply first_slash_inj in H as [-> H]; trivial.
    f_equal. apply IH; trivial; discriminate.
Qed.

Lemma str_wf_rel (p : t) :
  wf_rel p = true ->
  str p = match p with [] => "." | _ => PyStr.join_slash p end.
Proof.
  destruct p as [|x p']; [reflexivity|]. intros W. unfold str.
  cbn [wf_rel forallb] in W. apply andb_true_iff in W as [W _].
  now rewrite (wf_part_not_root _ W).
Qed.

Lemma join_slash_not_dot (p : t) :
  wf_rel p = true -> p <> [] -> PyStr.join_slash p <> ".".
Proof.
  destruct p as [|x p']; [contradiction|]. intros W _.
  cbn [wf_rel forallb] in W. apply andb_true_iff in W as [Wx _].
  unfold wf_part, keep_segment in Wx.
  apply andb_true_iff in Wx as [Wx _]. apply andb_true_iff in Wx as [E D].
  apply negb_true_iff in E, D. apply String.eqb_neq in E, D.
  destruct p' as [|y p'].
  - exact D.
  - rewrite join_cons2. destruct x as [|c x]; [contradiction|].
    cbn [append]. intros H. injection H as _ H. destruct x; discriminate.
Qed.

(** [str] is injective on relative paths made of proper names. *)
Lemma str_inj (p q : t) :
  wf_rel p = true -> wf_rel q = true -> str p = str q -> p = q.
Proof.
  intros Wp Wq. rewrite (str_wf_rel p Wp), (str_wf_rel q Wq).
  destruct p as [|x p'], q as [|y q']; intros H.
  - reflexivity.
  - symmetry in H. now apply join_slash_not_dot in H.
  - now apply join_slash_not_dot in H.
  - apply join_slash_inj; trivial; discriminate.
Qed.

Lemma wf_rel_app (p q : t) : wf_rel (p ++ q) = true -> wf_rel q = true.
Proof.
  unfold wf_rel. rewrite forallb_app. intros H.
  now apply andb_true_iff in H.
Qed.

(** What [relative_to] returns is the rest of the path after [other],
    and is made of proper names when the path is. *)
Lemma relative_to_ok (p other rel : t) :
  relative_to p other = Ok rel -> p = other ++ rel /\ (wf p = true -> wf_rel rel = true).
Proof.
  unfold relative_to. destruct other as [|a other'].
  - destruct (is_absolute p) eqn:A; [discriminate|]. intros H. injection H as <-.
    split; [reflexivity|]. destruct p as [|r tl]; [reflexivity|].
    cbn [is_absolute] in A. cbn [wf]. now rewrite A.
  - destruct (strip_prefix (a :: other') p) as [rel'|] eqn:S; [|discriminate].
    intros H. injection H as <-. apply strip_prefix_some in S. subst p.
    split; [reflexivity|]. cbn [app wf].
    destruct (is_root a).
    + apply wf_rel_app.
    + apply (wf_rel_app (a :: other')).
Qed.

End Keys.

(** ** Claims about the keys of [generate_file_prompts] *)

Section KeyClaims.

Import GitHubAnalyzer.

Lemma key_of_inside (self : GitHubAnalyzer.t) (f : PurePath.t) :
  inside self f = true ->
  exists rel,
    PurePath.relative_to f (PurePath.Path (temp_dir self)) = Ok rel /\
    key_of self f = PurePath.str rel.
Proof.
  unfold inside, key_of.
  destruct (PurePath.relative_to f _) as [rel|e]; [|discriminate].
  intros _. now exists rel.
Qed.

Lemma key_of_inj (self : GitHubAnalyzer.t) (f1 f2 : PurePath.t) :
  PurePath.wf f1 = true -> PurePath.wf f2 = true ->
  inside self f1 = true -> inside self f2 = true ->
  key_of self f1 = key_of self f2 -> f1 = f2.
Proof.
  intros W1 W2 I1 I2 K.
  apply key_of_inside in I1 as (r1 & R1 & K1).
  apply key_of_inside in I2 as (r2 & R2 & K2).
  apply relative_to_ok in R1 as [-> Wr1], R2 as [-> Wr2].
  f_equal. apply str_inj; auto. congruence.
Qed.

(** C7, as the code has it.  The map that [generate_file_prompts]
    returns has distinct keys.  A file in the workspace is keyed by its
    path relative to the workspace, and two distinct files of the
    workspace never have the same key; a file outside the workspace is
    keyed by its bare name.  An entry is only touched by files with its
    key: the files processed after a file leave its entry as it is when
    their keys are other keys, as they are when the file and they are
    distinct files of the workspace. *)
Theorem keys_distinct_inside_workspace (self : GitHubAnalyzer.t) :
  (forall E file_paths fs prompts fs',
     generate_file_prompts self E file_paths fs = (Ok prompts, fs') ->
     NoDup (Dict.keys prompts)) /\
  (forall f1 f2,
     PurePath.wf f1 = true -> PurePath.wf f2 = true ->
     inside self f1 = true -> inside self f2 = true ->
     f1 <> f2 -> key_of self f1 <> key_of self f2) /\
  (forall E f later fs fs' prompts prompts',
     Forall (fun g => key_of self g <> key_of self f) later ->
     prompt_loop self E later fs prompts = (Ok prompts', fs') ->
     Dict.get (key_of self f) prompts' = Dict.get (key_of self f) prompts) /\
  (forall E f later fs fs' prompts prompts',
     PurePath.wf f = true -> inside self f = true ->
     Forall (fun g => PurePath.wf g = true /\ inside self g = true /\ g <> f) later ->
     prompt_loop self E later fs prompts = (Ok prompts', fs') ->
     Dict.get (key_of self f) prompts' = Dict.get (key_of self f) prompts) /\
  (forall f, inside self f = false -> key_of self f = PurePath.name f).
Proof.
  split; [|split; [|split; [|split]]].
  - intros E file_paths fs prompts fs' H.
    eapply prompt_loop_NoDup; [exact H|constructor].
  - intros f1 f2 W1 W2 I1 I2 N K. apply N. now apply (key_of_inj self).
  - intros E f later fs fs' prompts prompts' L H.
    eapply prompt_loop_get_other; [exact L|exact H].
  - intros E f later fs fs' prompts prompts' W I L H.
    eapply prompt_loop_get_other; [|exact H].
    eapply Forall_impl; [|exact L].
    intros g (Wg & Ig & Ng) K. apply Ng. now apply (key_of_inj self).
  - intros f. unfold inside, key_of.
    destruct (PurePath.relative_to f _); [discriminate|reflexivity].
Qed.

Lemma keys_distinct_inside_workspace_witness :
  NoDup (Dict.keys [("ok.py", "pass")]) /\
  key_of Scenario.me PromptScenario.main_py <> key_of Scenario.me PromptScenario.ok_py /\
  Dict.get "src/main.py" [("src/main.py", "print(1)"); ("ok.py", "pass")]
    = Some "print(1)" /\
  key_of Scenario.me PromptScenario.a_x_py = "x.py".
Proof.
  destruct (keys_distinct_inside_workspace Scenario.me) as (N & I & _ & L & O).
  split; [|split; [|split]].
  - exact (N Scenario.env_plain [PromptScenario.blob_py; PromptScenario.ok_py]
             PromptScenario.fs_blob [("ok.py", "pass")] PromptScenario.fs_blob
             eq_refl).
  - apply (I PromptScenario.main_py PromptScenario.ok_py
             eq_refl eq_refl eq_refl eq_refl).
    discriminate.
  - apply (L Scenario.env_plain PromptScenario.main_py
             [PromptScenario.blob_py; PromptScenario.ok_py]
             PromptScenario.fs_blob PromptScenario.fs_blob
             [("src/main.py", "print(1)")]
             [("src/main.py", "print(1)"); ("ok.py", "pass")]
             eq_refl eq_refl).
    + repeat constructor; discriminate.
    + reflexivity.
  - exact (O PromptScenario.a_x_py eq_refl).
Defined.

(** C7 as stated fails where a file lies outside the workspace: two
    distinct files with the same name get the same key, be both outside
    or one of them right below the workspace, and what the first stored
    is replaced by what the second stores. *)
Lemma same_name_outside_workspace_collides :
  PromptScenario.a_x_py <> PromptScenario.b_x_py /\
  key_of Scenario.me PromptScenario.a_x_py = "x.py" /\
  key_of Scenario.me PromptScenario.b_x_py = "x.py" /\
  generate_file_prompts Scenario.me Scenario.env_plain
    [PromptScenario.a_x_py] PromptScenario.fs_outside
    = (Ok [("x.py", "A")], PromptScenario.fs_outside) /\
  generate_file_prompts Scenario.me Scenario.env_plain
    [PromptScenario.a_x_py; PromptScenario.b_x_py] PromptScenario.fs_outside
    = (Ok [("x.py", "B")], PromptScenario.fs_outside) /\
  CollisionScenario.a_ok_py <> CollisionScenario.w_ok_py /\
  generate_file_prompts Scenario.me Scenario.env_plain
    [CollisionScenario.a_ok_py; CollisionScenario.w_ok_py]
    CollisionScenario.fs_mixed
    = (Ok [("ok.py", "INSIDE")], CollisionScenario.fs_mixed).
Proof.
  repeat split; discriminate.
Qed.

End KeyClaims.

(** ** Claims about [analyze] *)

Section Analyze.

Import GitHubAnalyzer.

Lemma cleanup_absent (self : GitHubAnalyzer.t) (E : OS.env) (fs : FS.node) :
  FS.exists_ fs (PurePath.Path (temp_dir self)) = false ->
  FS.exists_ (cleanup self E fs) (PurePath.Path (temp_dir self)) = false.
Proof.
  intros X. unfold cleanup. now rewrite X.
Qed.

Lemma cleanup_removes (self : GitHubAnalyzer.t) (E : OS.env) (fs : FS.node) kids :
  FS.at_path fs (PurePath.Path (temp_dir self)) = Some (FS.Dir kids) ->
  FS.resolve (PurePath.Path (temp_dir self)) <> [] ->
  OS.removable E (PurePath.Path (temp_dir self)) = true ->
  FS.exists_ (cleanup self E fs) (PurePath.Path (temp_dir self)) = false.
Proof.
  intros A N R. unfold cleanup.
  assert (X : FS.exists_ fs (PurePath.Path (temp_dir self)) = true)
    by (unfold FS.exists_; now rewrite A).
  rewrite X. now apply (rmtree_gone E _ fs kids).
Qed.

Lemma cleanup_refused (self : GitHubAnalyzer.t) (E : OS.env) (fs : FS.node) :
  OS.removable E (PurePath.Path (temp_dir self)) = false ->
  cleanup self E fs = fs.
Proof.
  intros R. unfold cleanup, OS.rmtree_ignore_errors. rewrite R.
  destruct (FS.exists_ fs _); [|reflexivity].
  destruct (FS.at_path fs _) as [[?|?| | |]|]; try reflexivity.
  destruct (FS.resolve _); reflexivity.
Qed.

(** C1, as the code has it.  However the body of [analyze] ends, with
    a result or with the exception of [clone_repository] or of a later
    step, the cleanup runs on the file system the body left and
    [analyze] ends the way the body did: the cleanup raises nothing.
    After it the workspace is not there when it was already absent or
    when it is a directory whose removal is permitted; a removal that
    is refused is swallowed and leaves the file system as it was. *)
Theorem analyze_cleans_up_on_every_path
    (self : GitHubAnalyzer.t) (E : OS.env) (fs : FS.node) :
  let workspace := PurePath.Path (temp_dir self) in
  let left_by_body := snd (analyze_body self E fs) in
  fst (analyze self E fs) = fst (analyze_body self E fs) /\
  snd (analyze self E fs) = cleanup self E left_by_body /\
  (FS.exists_ left_by_body workspace = false ->
   FS.exists_ (snd (analyze self E fs)) workspace = false) /\
  (forall kids,
     FS.at_path left_by_body workspace = Some (FS.Dir kids) ->
     FS.resolve workspace <> [] ->
     OS.removable E workspace = true ->
     FS.exists_ (snd (analyze self E fs)) workspace = false) /\
  (OS.removable E workspace = false ->
   snd (analyze self E fs) = left_by_body).
Proof.
  intros workspace left_by_body. subst workspace left_by_body.
  unfold analyze. destruct (analyze_body self E fs) as [r fs1]. cbn [fst snd].
  split; [reflexivity|]. split; [reflexivity|]. split; [|split].
  - apply cleanup_absent.
  - apply cleanup_removes.
  - apply cleanup_refused.
Qed.

Lemma analyze_cleans_up_on_every_path_witness :
  (exists r, fst (analyze Scenario.me Scenario.env_plain Scenario.fs_empty) = Ok r) /\
  FS.exists_ (snd (analyze Scenario.me Scenario.env_plain Scenario.fs_empty))
    Scenario.workspace = false /\
  fst (analyze Scenario.me FailureScenario.env_clone_fails Scenario.fs_empty)
    = Raise FailureScenario.clone_failed /\
  FS.exists_ (snd (analyze Scenario.me FailureScenario.env_clone_fails Scenario.fs_empty))
    Scenario.workspace = false /\
  fst (analyze Scenario.me FailureScenario.env_denied Scenario.fs_empty)
    = Raise (FS.EACCES ["/"; "tmp"; "w"; "locked"]) /\
  FS.exists_ (snd (analyze Scenario.me FailureScenario.env_denied Scenario.fs_empty))
    Scenario.workspace = false.
Proof.
  destruct (analyze_cleans_up_on_every_path Scenario.me Scenario.env_plain
              Scenario.fs_empty) as (R1 & _ & _ & G1 & _).
  destruct (analyze_cleans_up_on_every_path Scenario.me
              FailureScenario.env_clone_fails Scenario.fs_empty)
    as (R2 & _ & _ & G2 & _).
  destruct (analyze_cleans_up_on_every_path Scenario.me
              FailureScenario.env_denied Scenario.fs_empty)
    as (R3 & _ & _ & G3 & _).
  split; [rewrite R1; eexists; reflexivity|].
  split; [eapply G1; [reflexivity|discriminate|reflexivity]|].
  split; [rewrite R2; reflexivity|].
  split; [eapply G2; [reflexivity|discriminate|reflexivity]|].
  split; [rewrite R3; reflexivity|].
  eapply G3; [reflexivity|discriminate|reflexivity].
Defined.

(** C1 as stated fails where the removal of the workspace is refused:
    [analyze] returns its result and the workspace is still there. *)
Lemma workspace_may_remain :
  exists r fs',
    analyze Scenario.me Scenario.env_protected Scenario.fs_empty = (Ok r, fs') /\
    FS.exists_ fs' (PurePath.Path (temp_dir Scenario.me)) = true.
Proof.
  eexists. exists Scenario.fs_cloned. split; reflexivity.
Qed.

End Analyze.

(** ** More about [find_files] *)

Section FindFilesMore.

Import GitHubAnalyzer.

(** The loop on entries with proper names, none of which refuses its
    stat: the two lists grow by the code entries and by the doc entries,
    in the order of the traversal. *)
Lemma find_loop_filter self path entries :
  Forall (fun e => PurePath.wf_rel (fst e) = true) entries ->
  forallb (fun e => negb (stat_refused e)) entries = true ->
  forall code_files doc_files,
  find_loop self path entries code_files doc_files
  = Ok (code_files ++ map (anchored self) (filter (code_entry path) entries),
        doc_files ++ map (anchored self) (filter (doc_entry path) entries)).
Proof.
  induction 1 as [|[rel n] rest W _ IH]; intros S cf df; cbn [find_loop].
  - cbn. now rewrite !app_nil_r.
  - cbn [forallb] in S. apply andb_true_iff in S as [Sn S].
    specialize (IH S). cbn [fst] in W.
    unfold code_entry, doc_entry. cbn [filter fst snd].
    destruct n as [c|kids| | |]; cbn [FS.is_file]; try apply IH; [|discriminate].
    destruct (binary_name _); cbn [negb andb]; [apply IH|].
    rewrite (relative_to_app _ _ W), (joinpath_rel _ _ W).
    destruct (code_name _); cbn [negb andb].
    { rewrite IH. cbn [map]. unfold anchored at 2. cbn [fst].
      now rewrite <- app_assoc. }
    destruct (doc_name _); [|apply IH].
    rewrite IH. cbn [map]. unfold anchored at 3. cbn [fst].
    now rewrite <- app_assoc.
Qed.

(** The loop raises at the first entry that refuses its stat. *)
Lemma find_loop_raises self path before rel after :
  Forall (fun e => PurePath.wf_rel (fst e) = true) before ->
  forallb (fun e => negb (stat_refused e)) before = true ->
  forall code_files doc_files,
  find_loop self path (before ++ (rel, FS.Denied) :: after) code_files doc_files
  = Raise (FS.EACCES (path ++ rel)).
Proof.
  induction 1 as [|[rel0 n] rest W _ IH]; intros S cf df; cbn [find_loop app].
  - reflexivity.
  - cbn [forallb] in S. apply andb_true_iff in S as [Sn S].
    specialize (IH S). cbn [fst] in W.
    destruct n as [c|kids| | |]; cbn [FS.is_file]; try apply IH; [|discriminate].
    destruct (binary_name _); [apply IH|].
    rewrite (relative_to_app _ _ W).
    destruct (code_name _); [apply IH|]. destruct (doc_name _); apply IH.
Qed.

(** A list splits at its first element that satisfies a test. *)
Lemma split_at_first {A : Type} (f : A -> bool) (l : list A) :
  forallb (fun x => negb (f x)) l = true \/
  exists before x after,
    l = before ++ x :: after /\ f x = true /\
    forallb (fun y => negb (f y)) before = true.
Proof.
  induction l as [|a l IH]; [now left|].
  destruct (f a) eqn:Fa.
  - right. exists [], a, l. now repeat split.
  - destruct IH as [IH|(before & x & after & -> & Fx & B)].
    + left. cbn [forallb]. now rewrite Fa, IH.
    + right. exists (a :: before), x, after. repeat split; trivial.
      cbn [forallb]. now rewrite Fa, B.
Qed.

Lemma rglob_at_wf_all (fs : FS.node) (path : PurePath.t) :
  wf_names fs = true ->
  Forall (fun e => PurePath.wf_rel (fst e) = true) (FS.rglob_at fs path).
Proof.
  intros W. apply Forall_forall. intros [rel n] Hin.
  now destruct (rglob_at_wf fs path W rel n Hin).
Qed.

Lemma rglob_from_returns (fs : FS.node) (path : PurePath.t) entries :
  FS.rglob_from fs path = Ok entries ->
  entries = FS.rglob_at fs path /\ FS.stat_at fs path <> FS.Refused.
Proof.
  unfold FS.rglob_from.
  destruct (FS.stat_at fs path); intros H; try discriminate;
    injection H as <-; split; trivial; discriminate.
Qed.

(** X1. When [rglob] yields entries none of which refuses its stat,
    [find_files] returns, in the order of the traversal, the regular
    files with a code suffix and no binary suffix, and the regular files
    with a doc pattern and neither a binary nor a code suffix, each
    under the workspace at the place it has below [path]. *)
Theorem find_files_is_a_filter
    (self : GitHubAnalyzer.t) (path : PurePath.t) (fs : FS.node)
    (entries : list (list string * FS.node)) :
  wf_names fs = true ->
  FS.rglob_from fs path = Ok entries ->
  forallb (fun e => negb (stat_refused e)) entries = true ->
  find_files self path fs
  = Ok (map (anchored self) (filter (code_entry path) entries),
        map (anchored self) (filter (doc_entry path) entries)).
Proof.
  intros W R S. unfold find_files. rewrite R.
  apply rglob_from_returns in R as [-> _].
  now rewrite (find_loop_filter self path _ (rglob_at_wf_all fs path W) S).
Qed.

Lemma find_files_is_a_filter_witness :
  find_files Scenario.me Scenario.workspace Scenario.fs_cloned
  = Ok ([["/"; "tmp"; "w"; "src"; "main.py"]],
        [["/"; "tmp"; "w"; "README.md"]; ["/"; "tmp"; "w"; "MIT-LICENSE"]]).
Proof.
  exact (find_files_is_a_filter Scenario.me Scenario.workspace Scenario.fs_cloned
           _ eq_refl eq_refl eq_refl).
Defined.

(** X2. [find_files] raises exactly in two cases: the stat of the
    directory it searches is itself refused, which [rglob] raises before
    it yields anything, or an entry below it refuses its stat, and what
    is raised is then the permission error of the first such entry of
    the traversal, the files classified before it being lost. *)
Theorem find_files_raises_on_refused_stat
    (self : GitHubAnalyzer.t) (path : PurePath.t) (fs : FS.node) (e : exn) :
  wf_names fs = true ->
  find_files self path fs = Raise e <->
  (FS.stat_at fs path = FS.Refused /\ e = FS.EACCES path) \/
  (FS.stat_at fs path <> FS.Refused /\
   exists before rel after,
     FS.rglob_at fs path = before ++ (rel, FS.Denied) :: after /\
     forallb (fun x => negb (stat_refused x)) before = true /\
     e = FS.EACCES (path ++ rel)).
Proof.
  intros W. pose proof (rglob_at_wf_all fs path W) as A.
  unfold find_files, FS.rglob_from.
  destruct (FS.stat_at fs path) as [start| |] eqn:St.
  3: { split.
       - intros H. injection H as <-. left. now split.
       - intros [[_ ->]|[N _]]; [reflexivity|now contradiction N]. }
  all: split.
  all: try (intros [[D _]|[_ (before & rel & after & Eq & B & ->)]];
            [discriminate|];
            rewrite Eq in A |- *; apply Forall_app in A as [A _];
            apply (find_loop_raises self path _ _ _ A B)).
  all: intros H; right; split; [discriminate|];
    (destruct (split_at_first stat_refused (FS.rglob_at fs path))
       as [S|(before & [rel n] & after & Eq & D & B)];
     [rewrite (find_loop_filter self path _ A S) in H; discriminate|];
     destruct n; try discriminate; exists before, rel, after;
     split; [exact Eq|]; split; [exact B|];
     rewrite Eq in H, A; apply Forall_app in A as [A _];
     rewrite (find_loop_raises self path _ _ _ A B) in H; now injection H).
Qed.

Lemma find_files_raises_on_refused_stat_witness :
  find_files Scenario.me Scenario.workspace FailureScenario.fs_denied
    = Raise (FS.EACCES ["/"; "tmp"; "w"; "locked"]) /\
  find_files Scenario.me ["/"; "tmp"; "w"; "sub"] MarkerScenario.fs_closed_workspace
    = Raise (FS.EACCES ["/"; "tmp"; "w"; "sub"]).
Proof.
  split.
  - apply (find_files_raises_on_refused_stat Scenario.me Scenario.workspace
             FailureScenario.fs_denied _ eq_refl).
    right. split; [discriminate|].
    exists [(["main.py"], FS.File (FS.Text "pass"))], ["locked"], [].
    repeat split.
  - apply (find_files_raises_on_refused_stat Scenario.me
             ["/"; "tmp"; "w"; "sub"] MarkerScenario.fs_closed_workspace _ eq_refl).
    left. split; reflexivity.
Defined.

End FindFilesMore.

Section ListedPaths.

Import GitHubAnalyzer.

(** A listed path, on a tree with proper names, is the workspace
    followed by the relative path of its origin. *)
Lemma origin_wf self path fs b p :
  wf_names fs = true ->
  origin self path (FS.rglob_at fs path) b p ->
  exists rel c,
    In (rel, FS.File c) (FS.rglob_at fs path) /\
    rel <> [] /\ PurePath.wf_rel rel = true /\
    p = PurePath.Path (temp_dir self) ++ rel /\
    binary_name (PurePath.name (path ++ rel)) = false /\
    code_name (PurePath.name (path ++ rel)) = b.
Proof.
  intros W (rel & c & rp & Hin & B & R & -> & Cb).
  destruct (rglob_at_wf fs path W _ _ Hin) as [Ne Wrel].
  rewrite (relative_to_app _ _ Wrel) in R. injection R as <-.
  exists rel, c. rewrite (joinpath_rel _ _ Wrel).
  repeat split; trivial. destruct b; [exact Cb|exact (proj1 Cb)].
Qed.

(** X3. No path is in both lists that [find_files] returns: a name
    with a code suffix goes to the code list only. *)
Theorem find_files_lists_are_disjoint
    (self : GitHubAnalyzer.t) (path : PurePath.t) (fs : FS.node)
    (code_files doc_files : list PurePath.t) (p : PurePath.t) :
  wf_names fs = true ->
  find_files self path fs = Ok (code_files, doc_files) ->
  In p code_files -> ~ In p doc_files.
Proof.
  intros W H Hc Hd. apply find_files_returns, find_loop_sound in H as [Sc Sd].
  destruct (Sc p Hc) as [[]|Oc]. destruct (Sd p Hd) as [[]|Od].
  apply (origin_wf _ _ _ _ _ W) in Oc as (r1 & c1 & _ & _ & _ & E1 & _ & C1).
  apply (origin_wf _ _ _ _ _ W) in Od as (r2 & c2 & _ & _ & _ & E2 & _ & C2).
  rewrite E1 in E2. apply app_inv_head in E2. subst r2. congruence.
Qed.

Lemma find_files_lists_are_disjoint_witness :
  ~ In ["/"; "tmp"; "w"; "src"; "main.py"]
      [["/"; "tmp"; "w"; "README.md"]; ["/"; "tmp"; "w"; "MIT-LICENSE"]].
Proof.
  apply (find_files_lists_are_disjoint Scenario.me Scenario.workspace
           Scenario.fs_cloned [["/"; "tmp"; "w"; "src"; "main.py"]] _ _
           eq_refl eq_refl).
  now left.
Defined.

(** X4. Every path that [find_files] lists lies in the workspace, and
    [generate_file_prompts] keys it by the names of the file below the
    directory that was searched, joined by slashes. *)
Theorem find_files_lists_are_keyed_by_relative_path
    (self : GitHubAnalyzer.t) (path : PurePath.t) (fs : FS.node)
    (code_files doc_files : list PurePath.t) (p : PurePath.t) :
  wf_names fs = true ->
  find_files self path fs = Ok (code_files, doc_files) ->
  In p code_files \/ In p doc_files ->
  exists rel c,
    In (rel, FS.File c) (FS.rglob_at fs path) /\
    p = PurePath.Path (temp_dir self) ++ rel /\
    inside self p = true /\
    key_of self p = PyStr.join_slash rel.
Proof.
  intros W H Hp. apply find_files_returns, find_loop_sound in H as [Sc Sd].
  assert (O : exists b, origin self path (FS.rglob_at fs path) b p).
  { destruct Hp as [Hp|Hp].
    - destruct (Sc p Hp) as [[]|O]. now exists true.
    - destruct (Sd p Hp) as [[]|O]. now exists false. }
  destruct O as [b O].
  apply (origin_wf _ _ _ _ _ W) in O as (rel & c & Hin & Ne & Wrel & -> & _).
  exists rel, c. split; [exact Hin|]. split; [reflexivity|].
  unfold inside, key_of. rewrite (relative_to_app _ _ Wrel).
  split; [reflexivity|]. rewrite (str_wf_rel _ Wrel).
  destruct rel; [contradiction|reflexivity].
Qed.

Lemma find_files_lists_are_keyed_by_relative_path_witness :
  exists rel c,
    In (rel, FS.File c) (FS.rglob_at Scenario.fs_cloned Scenario.workspace) /\
    ["/"; "tmp"; "w"; "src"; "main.py"]
      = PurePath.Path (temp_dir Scenario.me) ++ rel /\
    inside Scenario.me ["/"; "tmp"; "w"; "src"; "main.py"] = true /\
    key_of Scenario.me ["/"; "tmp"; "w"; "src"; "main.py"] = PyStr.join_slash rel.
Proof.
  apply (find_files_lists_are_keyed_by_relative_path Scenario.me
           Scenario.workspace Scenario.fs_cloned
           [["/"; "tmp"; "w"; "src"; "main.py"]]
           [["/"; "tmp"; "w"; "README.md"]; ["/"; "tmp"; "w"; "MIT-LICENSE"]]
           _ eq_refl eq_refl).
  left. now left.
Defined.

End ListedPaths.

(** ** More about [generate_file_tree] *)

Section FileTreeMore.

Import GitHubAnalyzer.

Lemma set_no_hidden (k : string) (v : ftree) (tree : Dict.t ftree) :
  no_hidden tree = true -> PyStr.startswith k "." = false ->
  no_hidden_value v = true -> no_hidden (Dict.set k v tree) = true.
Proof.
  unfold no_hidden. intros Ht Hk Hv.
  induction tree as [|[k' v'] r IH]; cbn [Dict.set forallb fst snd] in *.
  - now rewrite Hk, Hv.
  - apply andb_true_iff in Ht as [H1 H2].
    destruct (k' =? k) eqn:E; cbn [forallb fst snd].
    + apply String.eqb_eq in E. subst k'. now rewrite Hk, Hv, H2.
    + now rewrite H1, IH.
Qed.

Lemma tree_loop_no_hidden (build : PurePath.t -> FS.node -> Dict.t ftree)
    (path : PurePath.t) (items : list (string * FS.node)) :
  Forall (fun kv => forall p, no_hidden (build p (snd kv)) = true) items ->
  forall tree, no_hidden tree = true ->
  no_hidden (tree_loop build path items tree) = true.
Proof.
  induction 1 as [|[item_name child] rest Hchild _ IH]; intros tree Ht;
    cbn [tree_loop]; [exact Ht|].
  destruct (PyStr.startswith item_name ".") eqn:Dot; [now apply IH|].
  destruct (FS.is_file _ child) as [[|]|e]; [|..|exact Ht].
  - apply IH, set_no_hidden; trivial.
  - destruct (FS.is_dir _ child) as [[|]|e]; [|now apply IH|exact Ht].
    destruct (Dict.truthy _); [|now apply IH].
    apply IH, set_no_hidden; trivial.
    apply (Hchild (path ++ [item_name])).
Qed.

Lemma _build_tree_no_hidden (n : FS.node) :
  forall path, no_hidden (_build_tree path n) = true.
Proof.
  induction n as [c|kids IH| | |] using node_induction; intros path;
    try reflexivity.
  cbn [_build_tree]. now apply tree_loop_no_hidden.
Qed.

(** X5. At no depth does the tree that [generate_file_tree] returns
    hold a name that starts with a dot: hidden files are left out and
    hidden directories are not entered. *)
Theorem generate_file_tree_no_hidden_names (path : PurePath.t) (fs : FS.node) :
  no_hidden (generate_file_tree path fs) = true.
Proof.
  unfold generate_file_tree.
  destruct (FS.at_path fs path); [apply _build_tree_no_hidden|reflexivity].
Qed.

(** X6. An entry that refuses its stat ends the listing of its
    directory: the entries before it are kept, those after it are left
    out, whatever they are, and nothing is raised. *)
Theorem refused_stat_cuts_the_directory_short
    (path : PurePath.t) (name : string) (before after : list (string * FS.node)) :
  PyStr.startswith name "." = false ->
  _build_tree path (FS.Dir (before ++ (name, FS.Denied) :: after))
  = _build_tree path (FS.Dir before).
Proof.
  intros Dot. cbn [_build_tree]. generalize (@nil (string * ftree)).
  induction before as [|[item_name child] rest IH]; intros tree;
    cbn [tree_loop app].
  - now rewrite Dot.
  - destruct (PyStr.startswith item_name "."); [apply IH|].
    destruct (FS.is_file _ child) as [[|]|e]; [apply IH| |reflexivity].
    destruct (FS.is_dir _ child) as [[|]|e]; [|apply IH|reflexivity].
    destruct (Dict.truthy _); apply IH.
Qed.

Lemma refused_stat_cuts_the_directory_short_witness :
  _build_tree ["/"; "tmp"; "w"]
    (FS.Dir [("main.py", FS.File (FS.Text "pass")); ("locked", FS.Denied);
             ("README.md", FS.File (FS.Text "# Title"))])
  = [("main.py", Leaf "/tmp/w/main.py")].
Proof.
  exact (eq_trans
           (refused_stat_cuts_the_directory_short ["/"; "tmp"; "w"] "locked"
              [("main.py", FS.File (FS.Text "pass"))]
              [("README.md", FS.File (FS.Text "# Title"))] eq_refl)
           eq_refl).
Defined.

Lemma in_set {V : Type} (k k0 : string) (v v0 : V) (d : Dict.t V) :
  In (k, v) (Dict.set k0 v0 d) -> (k = k0 /\ v = v0) \/ In (k, v) d.
Proof.
  induction d as [|[k' v'] r IH]; cbn [Dict.set].
  - intros [H|[]]. injection H as <- <-. now left.
  - destruct (k' =? k0) eqn:E.
    + apply String.eqb_eq in E. subst k'. intros [H|H].
      * injection H as <- <-. now left.
      * right. now right.
    + intros [H|H]; [right; now left|].
      destruct (IH H) as [L|R]; [now left|right; now right].
Qed.

(** What the loop adds to the tree stems from the entries it reads. *)
Lemma tree_loop_sound (path : PurePath.t) (items : list (string * FS.node)) :
  forall tree k v,
  In (k, v) (tree_loop _build_tree path items tree) ->
  In (k, v) tree \/
  exists child, In (k, child) items /\ tree_value path k child = Some v.
Proof.
  induction items as [|[item_name child] rest IH]; intros tree k v H;
    cbn [tree_loop] in H; [now left|].
  assert (Later : forall tree0,
    In (k, v) (tree_loop _build_tree path rest tree0) ->
    (In (k, v) tree0 ->
       In (k, v) tree \/
       exists ch, In (k, ch) ((item_name, child) :: rest) /\
                  tree_value path k ch = Some v) ->
    In (k, v) tree \/
    exists ch, In (k, ch) ((item_name, child) :: rest) /\
               tree_value path k ch = Some v).
  { intros tree0 H0 Base. destruct (IH _ _ _ H0) as [Hin|(ch & Hch & V)].
    - now apply Base.
    - right. exists ch. split; [now right|exact V]. }
  destruct (PyStr.startswith item_name ".") eqn:Dot;
    [apply (Later _ H); now left|].
  destruct child as [c|kids| | |]; cbn [FS.is_file FS.is_dir] in H;
    try (apply (Later _ H); now left); try (now left).
  - apply (Later _ H). intros Hin.
    apply in_set in Hin as [[-> ->]|Hin]; [right|now left].
    exists (FS.File c). split; [now left|].
    unfold tree_value. now rewrite Dot.
  - destruct (Dict.truthy _) eqn:T; [|apply (Later _ H); now left].
    apply (Later _ H). intros Hin.
    apply in_set in Hin as [[-> ->]|Hin]; [right|now left].
    exists (FS.Dir kids). split; [now left|].
    unfold tree_value. now rewrite Dot, T.
Qed.

(** X7. The tree holds nothing that is not in the directory: each of
    its entries is, under the name of an entry of the directory that is
    not hidden, the path of that regular file or the tree, not empty,
    of that subdirectory. *)
Theorem tree_entries_stem_from_the_directory
    (path : PurePath.t) (kids : list (string * FS.node)) (k : string) (v : ftree) :
  In (k, v) (_build_tree path (FS.Dir kids)) ->
  exists child, In (k, child) kids /\ tree_value path k child = Some v.
Proof.
  cbn [_build_tree]. intros H.
  destruct (tree_loop_sound path kids [] k v H) as [[]|S]. exact S.
Qed.

Lemma tree_entries_stem_from_the_directory_witness :
  exists child,
    In ("README.md", child) [("README.md", FS.File (FS.Text "# Title"))] /\
    tree_value ["/"; "tmp"; "w"] "README.md" child
    = Some (Leaf "/tmp/w/README.md").
Proof.
  apply (tree_entries_stem_from_the_directory ["/"; "tmp"; "w"]
           [("README.md", FS.File (FS.Text "# Title"))]).
  now left.
Defined.

End FileTreeMore.

Section FileTreeLookup.

Import GitHubAnalyzer.

(** As long as no entry refuses its stat, the loop reads all entries. *)
Lemma tree_loop_app (path : PurePath.t) (before rest : list (string * FS.node)) :
  forallb (fun kv => negb (stat_refused_kid kv)) before = true ->
  forall tree,
  tree_loop _build_tree path (before ++ rest) tree
  = tree_loop _build_tree path rest (tree_loop _build_tree path before tree).
Proof.
  induction before as [|[item_name child] more IH]; intros S tree;
    cbn [tree_loop app]; [reflexivity|].
  cbn [forallb] in S. apply andb_true_iff in S as [Sc S]. specialize (IH S).
  destruct (PyStr.startswith item_name "."); [apply IH|].
  destruct child as [c|kids| | |]; cbn [FS.is_file FS.is_dir];
    try apply IH; [|discriminate].
  destruct (Dict.truthy _); apply IH.
Qed.

(** The loop leaves alone the names it does not read. *)
Lemma tree_loop_get_other (path : PurePath.t) (k : string)
    (items : list (string * FS.node)) :
  ~ In k (map fst items) ->
  forall tree,
  Dict.get k (tree_loop _build_tree path items tree) = Dict.get k tree.
Proof.
  induction items as [|[item_name child] rest IH]; intros N tree;
    cbn [tree_loop]; [reflexivity|].
  cbn [map fst In] in N.
  assert (Nk : item_name <> k) by tauto.
  assert (Nr : ~ In k (map fst rest)) by tauto. specialize (IH Nr).
  destruct (PyStr.startswith item_name "."); [apply IH|].
  destruct (FS.is_file _ child) as [[|]|e]; [|..|reflexivity].
  - rewrite IH. now apply get_set_other.
  - destruct (FS.is_dir _ child) as [[|]|e]; [|apply IH|reflexivity].
    destruct (Dict.truthy _); [|apply IH].
    rewrite IH. now apply get_set_other.
Qed.

(** X8. Looking a name up in the tree of a directory: when the name
    occurs once in the directory and no entry before it refuses its
    stat, the tree holds for it the path of the regular file, the
    non-empty tree of the subdirectory, and nothing for a hidden entry,
    for an empty subdirectory or for an entry of another kind. *)
Theorem tree_lookup
    (path : PurePath.t) (name : string) (child : FS.node)
    (before after : list (string * FS.node)) :
  forallb (fun kv => negb (stat_refused_kid kv)) before = true ->
  ~ In name (map fst before) -> ~ In name (map fst after) ->
  Dict.get name (_build_tree path (FS.Dir (before ++ (name, child) :: after)))
  = tree_value path name child.
Proof.
  intros S Nb Na. cbn [_build_tree]. rewrite (tree_loop_app path _ _ S).
  assert (B : Dict.get name (tree_loop _build_tree path before []) = None)
    by now rewrite (tree_loop_get_other path name before Nb).
  set (tree := tree_loop _build_tree path before []) in *.
  unfold tree_value. cbn [tree_loop].
  destruct (PyStr.startswith name ".");
    [now rewrite (tree_loop_get_other path name after Na)|].
  destruct child as [c|kids| | |]; cbn [FS.is_file FS.is_dir].
  - rewrite (tree_loop_get_other path name after Na). apply get_set_same.
  - destruct (Dict.truthy _);
      rewrite (tree_loop_get_other path name after Na);
      [apply get_set_same|exact B].
  - cbn [_build_tree Dict.truthy].
    now rewrite (tree_loop_get_other path name after Na).
  - now rewrite (tree_loop_get_other path name after Na).
  - exact B.
Qed.

Lemma tree_lookup_witness :
  Dict.get "logo.png"
    (_build_tree ["/"; "tmp"; "w"]
       (FS.Dir [("dist", FS.Dir []);
                ("logo.png", FS.File (FS.Undecodable "not text"));
                (".git", FS.Dir [("HEAD", FS.File (FS.Text "ref"))])]))
  = Some (Leaf "/tmp/w/logo.png") /\
  Dict.get "dist"
    (_build_tree ["/"; "tmp"; "w"]
       (FS.Dir [("dist", FS.Dir []);
                ("logo.png", FS.File (FS.Undecodable "not text"))]))
  = None.
Proof.
  split.
  - apply (tree_lookup ["/"; "tmp"; "w"] "logo.png"
             (FS.File (FS.Undecodable "not text"))
             [("dist", FS.Dir [])]
             [(".git", FS.Dir [("HEAD", FS.File (FS.Text "ref"))])] eq_refl).
    + cbn. intros [H|[]]. discriminate.
    + cbn. intros [H|[]]. discriminate.
  - apply (tree_lookup ["/"; "tmp"; "w"] "dist" (FS.Dir []) []
             [("logo.png", FS.File (FS.Undecodable "not text"))] eq_refl).
    + intros [].
    + cbn. intros [H|[]]. discriminate.
Defined.

End FileTreeLookup.

(** ** Parsing what was joined *)

Section ParseJoin.

Import PurePath.

Lemma append_nil_r (s : string) : (s ++ "")%string = s.
Proof. induction s as [|c s IH]; cbn [append]; [reflexivity|now rewrite IH]. Qed.

Lemma append_assoc (a b c : string) :
  ((a ++ b) ++ c)%string = (a ++ (b ++ c))%string.
Proof. induction a as [|x a IH]; cbn [append]; [reflexivity|now rewrite IH]. Qed.

Lemma has_slash_append (a b : string) :
  PyStr.has_slash (a ++ b) = PyStr.has_slash a || PyStr.has_slash b.
Proof.
  induction a as [|c a IH]; cbn [append PyStr.has_slash]; [reflexivity|].
  now rewrite IH, orb_assoc.
Qed.

(** A string without a slash is one segment. *)
Lemma split_from_segment (a : string) :
  PyStr.has_slash a = false ->
  forall cur, PyStr.split_from cur a = [(cur ++ a)%string].
Proof.
  induction a as [|c a IH]; intros H cur; cbn [PyStr.split_from].
  - now rewrite append_nil_r.
  - cbn [PyStr.has_slash] in H. apply orb_false_iff in H as [Hc H].
    rewrite Hc, (IH H), append_assoc. reflexivity.
Qed.

Lemma split_from_slash (a x : string) :
  PyStr.has_slash a = false ->
  forall cur,
  PyStr.split_from cur (a ++ String "/" x)
  = (cur ++ a)%string :: PyStr.split_from "" x.
Proof.
  induction a as [|c a IH]; intros H cur; cbn [PyStr.split_from append].
  - now rewrite append_nil_r.
  - cbn [PyStr.has_slash] in H. apply orb_false_iff in H as [Hc H].
    rewrite Hc, (IH H), append_assoc. reflexivity.
Qed.

Lemma split_join (l : list string) :
  l <> [] -> wf_rel l = true -> PyStr.split_slash (PyStr.join_slash l) = l.
Proof.
  unfold PyStr.split_slash.
  induction l as [|a l IH]; intros N W; [contradiction|].
  cbn [wf_rel forallb] in W. apply andb_true_iff in W as [Wa W].
  apply wf_part_no_slash in Wa. destruct l as [|b l].
  - cbn [PyStr.join_slash String.concat]. now rewrite split_from_segment.
  - rewrite join_cons2, split_from_slash by exact Wa. cbn [append].
    f_equal. apply IH; [discriminate|exact W].
Qed.

Lemma filter_keep_wf (l : list string) :
  wf_rel l = true -> filter keep_segment l = l.
Proof.
  induction l as [|a l IH]; [reflexivity|]. cbn [wf_rel forallb filter].
  intros W. apply andb_true_iff in W as [Wa W].
  unfold wf_part in Wa. apply andb_true_iff in Wa as [Wa _].
  rewrite Wa. f_equal. now apply IH.
Qed.

Lemma join_starts_with_name (l : list string) :
  l <> [] -> wf_rel l = true ->
  exists c s, PyStr.join_slash l = String c s /\ c <> "/"%char.
Proof.
  destruct l as [|a l]; intros N W; [contradiction|].
  cbn [wf_rel forallb] in W. apply andb_true_iff in W as [Wa _].
  unfold wf_part, keep_segment in Wa.
  apply andb_true_iff in Wa as [K S]. apply andb_true_iff in K as [K _].
  apply negb_true_iff in K, S. apply String.eqb_neq in K.
  destruct a as [|c a]; [contradiction|].
  cbn [PyStr.has_slash] in S. apply orb_false_iff in S as [S _].
  apply Ascii.eqb_neq in S.
  destruct l as [|b l].
  - exists c, a. now split.
  - rewrite join_cons2. cbn [append]. eexists c, _. split; [reflexivity|exact S].
Qed.

(** [Path('/'.join(names))] gives the names back. *)
Lemma Path_join (l : list string) :
  l <> [] -> wf_rel l = true -> Path (PyStr.join_slash l) = l.
Proof.
  intros N W. destruct (join_starts_with_name l N W) as (c & s & E & Hc).
  unfold Path, splitroot, PyStr.startswith.
  assert (L : PyStr.lstrip_slash (PyStr.join_slash l) = PyStr.join_slash l).
  { rewrite E. cbn [PyStr.lstrip_slash].
    apply Ascii.eqb_neq in Hc. now rewrite Hc. }
  assert (R : String.prefix "/" (PyStr.join_slash l) = false).
  { rewrite E. cbn [String.prefix].
    destruct (ascii_dec "/" c) as [X|X]; [now subst|reflexivity]. }
  rewrite L, R, (split_join l N W). now apply filter_keep_wf.
Qed.

Lemma join_snoc (l : list string) (x s : string) :
  (PyStr.join_slash (l ++ [x]) ++ s)%string = PyStr.join_slash (l ++ [(x ++ s)%string]).
Proof.
  induction l as [|a l IH]; [reflexivity|].
  destruct l as [|b l].
  - cbn [app]. rewrite !join_cons2.
    change (PyStr.join_slash [x]) with x.
    change (PyStr.join_slash [(x ++ s)%string]) with (x ++ s)%string.
    rewrite append_assoc. reflexivity.
  - change ((a :: b :: l) ++ [x]) with (a :: b :: (l ++ [x])).
    change ((a :: b :: l) ++ [(x ++ s)%string]) with (a :: b :: (l ++ [(x ++ s)%string])).
    rewrite !join_cons2, append_assoc. cbn [append]. do 2 f_equal.
    exact IH.
Qed.

Lemma wf_part_suffixed (x : string) :
  x = "" \/ wf_part x = true -> wf_part (x ++ ".prompt.txt") = true.
Proof.
  intros H. unfold wf_part, keep_segment.
  assert (S : PyStr.has_slash x = false).
  { destruct H as [->|H]; [reflexivity|now apply wf_part_no_slash]. }
  rewrite has_slash_append, S. cbn [orb].
  destruct x as [|c [|d x]]; cbn; try reflexivity.
  - now destruct (Ascii.eqb c ".").
  - now destruct (Ascii.eqb c ".").
Qed.

Lemma forallb_last {A : Type} (f : A -> bool) (l : list A) (d : A) :
  l <> [] -> forallb f l = true -> f (last l d) = true.
Proof.
  induction l as [|a l IH]; intros N H; [contradiction|].
  cbn [forallb] in H. apply andb_true_iff in H as [Ha H].
  destruct l as [|b l]; [exact Ha|]. apply IH; [discriminate|exact H].
Qed.

Lemma forallb_removelast {A : Type} (f : A -> bool) (l : list A) :
  forallb f l = true -> forallb f (removelast l) = true.
Proof.
  induction l as [|a l IH]; intros H; [reflexivity|].
  cbn [forallb] in H. apply andb_true_iff in H as [Ha H].
  destruct l as [|b l]; [reflexivity|].
  change (removelast (a :: b :: l)) with (a :: removelast (b :: l)).
  cbn [forallb]. now rewrite Ha, IH.
Qed.

Lemma wf_rel_suffixed (rel : list string) :
  rel <> [] -> wf_rel rel = true ->
  wf_rel (removelast rel ++ [(last rel "" ++ ".prompt.txt")%string]) = true.
Proof.
  intros N W. unfold wf_rel. rewrite forallb_app. cbn [forallb].
  rewrite (forallb_removelast _ _ W), wf_part_suffixed; [reflexivity|].
  right. now apply forallb_last.
Qed.

(** Parsing the key of a file of the workspace with [.prompt.txt]
    added gives the names of the file, the suffix added to the last. *)
Lemma Path_key_suffixed (rel : list string) :
  rel <> [] -> wf_rel rel = true ->
  Path (PyStr.join_slash rel ++ ".prompt.txt")
  = removelast rel ++ [(last rel "" ++ ".prompt.txt")%string].
Proof.
  intros N W.
  rewrite (app_removelast_last "" N) at 1.
  rewrite join_snoc. apply Path_join; [|now apply wf_rel_suffixed].
  destruct (removelast rel); discriminate.
Qed.

Lemma name_wf (p : t) : wf p = true -> name p = "" \/ wf_part (name p) = true.
Proof.
  destruct p as [|a [|b l]]; cbn [wf name]; intros W.
  - now left.
  - destruct (is_root a); [now left|right].
    cbn [wf_rel forallb] in W. now apply andb_true_iff in W as [W _].
  - right. assert (W' : wf_rel (b :: l) = true).
    { destruct (is_root a); [exact W|].
      cbn [wf_rel forallb] in W. now apply andb_true_iff in W as [_ W]. }
    change (last (a :: b :: l) "") with (last (b :: l) "").
    apply forallb_last; [discriminate|exact W'].
Qed.

End ParseJoin.

(** ** The place of the output file *)

Section OutputFile.

Import GitHubAnalyzer.

Lemma length_append (a b : string) :
  String.length (a ++ b) = String.length a + String.length b.
Proof. induction a as [|c a IH]; cbn [append String.length]; [reflexivity|now rewrite IH]. Qed.

Lemma suffixed_differs (x : string) : (x ++ ".prompt.txt")%string <> x.
Proof.
  intros H. apply (f_equal String.length) in H.
  rewrite length_append in H. cbn [String.length] in H. lia.
Qed.

(** The output file of a well-formed path, by names. *)
Lemma output_file_names (self : GitHubAnalyzer.t) (f : PurePath.t) :
  PurePath.wf f = true ->
  output_file_of self f = PurePath.Path (temp_dir self) ++ output_names self f /\
  output_names self f <> [] /\
  PurePath.wf_rel (output_names self f) = true.
Proof.
  intros W. unfold output_file_of, key_of, output_names.
  destruct (PurePath.relative_to f _) as [rel|e] eqn:R.
  - apply relative_to_ok in R as [_ Wrel]. specialize (Wrel W).
    destruct rel as [|a rel].
    + repeat split. discriminate.
    + assert (N : a :: rel <> []) by discriminate.
      rewrite (str_wf_rel _ Wrel), (Path_key_suffixed _ N Wrel).
      pose proof (wf_rel_suffixed _ N Wrel) as Ws.
      rewrite (joinpath_rel _ _ Ws). repeat split; trivial.
      destruct (removelast (a :: rel)); discriminate.
  - pose proof (wf_part_suffixed _ (name_wf f W)) as Wp.
    assert (Ws : PurePath.wf_rel [(PurePath.name f ++ ".prompt.txt")%string] = true)
      by (cbn; now rewrite Wp).
    change (PurePath.name f ++ ".prompt.txt")%string
      with (PyStr.join_slash [(PurePath.name f ++ ".prompt.txt")%string]) at 1.
    rewrite (Path_join [(PurePath.name f ++ ".prompt.txt")%string]
               ltac:(discriminate) Ws), (joinpath_rel _ _ Ws).
    repeat split; trivial. discriminate.
Qed.

Lemma suffixed_not_dotdot (x : string) :
  negb ((x ++ ".prompt.txt")%string =? "..") = true.
Proof.
  apply negb_true_iff, String.eqb_neq. intros H.
  apply (f_equal String.length) in H. rewrite length_append in H.
  cbn [String.length] in H. lia.
Qed.

Lemma output_names_no_dotdot (self : GitHubAnalyzer.t) (f : PurePath.t) :
  no_dotdot f = true -> no_dotdot (output_names self f) = true.
Proof.
  intros D. unfold output_names.
  destruct (PurePath.relative_to f _) as [rel|e] eqn:R.
  - apply relative_to_ok in R as [-> _]. unfold no_dotdot in D.
    rewrite forallb_app in D. apply andb_true_iff in D as [_ D].
    destruct rel as [|a rel]; [reflexivity|].
    unfold no_dotdot. rewrite forallb_app. cbn [forallb].
    now rewrite (forallb_removelast _ _ D), suffixed_not_dotdot.
  - unfold no_dotdot. cbn [forallb]. now rewrite suffixed_not_dotdot.
Qed.

(** X9. The output file of a path in which no name is [..] lies in the
    workspace: it is the workspace followed by names none of which is
    [..], those of the file with [.prompt.txt] added to the last when
    the file is in the workspace, and the bare name of the file with
    [.prompt.txt] added when it is not. *)
Theorem output_file_is_in_the_workspace
    (self : GitHubAnalyzer.t) (file_path : PurePath.t) :
  PurePath.wf file_path = true ->
  no_dotdot file_path = true ->
  output_file_of self file_path
    = PurePath.Path (temp_dir self) ++ output_names self file_path /\
  output_names self file_path <> [] /\
  no_dotdot (output_names self file_path) = true.
Proof.
  intros W D. destruct (output_file_names self file_path W) as (E & N & _).
  split; [exact E|]. split; [exact N|]. now apply output_names_no_dotdot.
Qed.

Lemma output_file_is_in_the_workspace_witness :
  output_file_of Scenario.me PromptScenario.main_py
    = ["/"; "tmp"; "w"; "src"; "main.py.prompt.txt"] /\
  output_file_of Scenario.me PromptScenario.a_x_py
    = ["/"; "tmp"; "w"; "x.py.prompt.txt"].
Proof.
  split.
  - exact (proj1 (output_file_is_in_the_workspace Scenario.me
                    PromptScenario.main_py eq_refl eq_refl)).
  - exact (proj1 (output_file_is_in_the_workspace Scenario.me
                    PromptScenario.a_x_py eq_refl eq_refl)).
Defined.

(** X10. The output file is never the file that is rendered, so that
    the [finally] clause, which removes the output file, cannot remove
    the source. *)
Theorem output_file_is_not_the_source
    (self : GitHubAnalyzer.t) (file_path : PurePath.t) :
  PurePath.wf file_path = true ->
  output_file_of self file_path <> file_path.
Proof.
  intros W H. destruct (output_file_names self file_path W) as (E & N & Ws).
  rewrite H in E.
  pose proof (relative_to_app (PurePath.Path (temp_dir self)) _ Ws) as R.
  rewrite <- E in R.
  assert (O : output_names self file_path
              = match output_names self file_path with
                | [] => ["..prompt.txt"]
                | a :: l =>
                    removelast (a :: l)
                    ++ [(last (a :: l) "" ++ ".prompt.txt")%string]
                end).
  { unfold output_names at 1. rewrite R.
    destruct (output_names self file_path); reflexivity. }
  destruct (output_names self file_path) as [|a rel]; [discriminate O|].
  assert (L : removelast (a :: rel) ++ [(last (a :: rel) "" ++ ".prompt.txt")%string]
              = removelast (a :: rel) ++ [last (a :: rel) ""]).
  { rewrite <- O. apply app_removelast_last. discriminate. }
  apply app_inj_tail in L as [_ L]. now apply suffixed_differs in L.
Qed.

Lemma output_file_is_not_the_source_witness :
  output_file_of Scenario.me PromptScenario.main_py <> PromptScenario.main_py.
Proof.
  exact (output_file_is_not_the_source Scenario.me PromptScenario.main_py eq_refl).
Defined.

Lemma resolve_app (base names : list string) :
  names <> [] -> PurePath.wf_rel names = true -> FS.resolve (base ++ names) <> [].
Proof.
  intros N W. destruct base as [|r tl]; cbn [app].
  - destruct names as [|a l]; [contradiction|]. cbn [FS.resolve].
    cbn [PurePath.wf_rel forallb] in W. apply andb_true_iff in W as [Wa _].
    rewrite (wf_part_not_root _ Wa). discriminate.
  - cbn [FS.resolve]. destruct (PurePath.is_root r); [|discriminate].
    destruct tl; [exact N|discriminate].
Qed.

(** X11. Whatever branch an iteration took, when it is over the output
    file is gone, unless its removal is refused or a directory stands
    in its place. *)
Theorem output_file_is_cleaned_up
    (self : GitHubAnalyzer.t) (E : OS.env) (file_path : PurePath.t)
    (fs fs' : FS.node) (prompts prompts' : Dict.t string) :
  PurePath.wf file_path = true ->
  process_file self E file_path fs prompts = (Ok prompts', fs') ->
  FS.exists_ fs' (output_file_of self file_path) = true ->
  OS.removable E (output_file_of self file_path) = false \/
  exists n,
    FS.at_path fs' (output_file_of self file_path) = Some n /\
    FS.is_dir (output_file_of self file_path) n = Ok true.
Proof.
  intros W P X. destruct (output_file_names self file_path W) as (Eo & N & Ws).
  pose proof (resolve_app (PurePath.Path (temp_dir self)) _ N Ws) as Rs.
  rewrite <- Eo in Rs. clear Eo N Ws.
  set (out := output_file_of self file_path) in *.
  unfold process_file in P. fold out in P.
  destruct (FS.mkdir_parents _ fs) as [fs0|e]; [|discriminate].
  destruct (render E file_path out fs0) as [a fs1].
  destruct (cleanup_output E out fs1) as [fs2|e] eqn:C; [|discriminate].
  injection P as _ <-. unfold cleanup_output in C.
  destruct (FS.Path_exists fs1 out) as [[|]|e] eqn:X1; [| |discriminate].
  - destruct (OS.unlink E out fs1) as [fs3|e] eqn:U; injection C as <-.
    + apply unlink_gone in U. congruence.
    + unfold OS.unlink in U. unfold FS.exists_ in X.
      destruct (FS.at_path fs1 out) as [[c|kids| | |]|];
        try discriminate; try (right; eexists; split; reflexivity);
        (destruct (FS.resolve out); [contradiction|];
         destruct (OS.removable E out); [discriminate|now left]).
  - injection C as <-. apply Path_exists_answer in X1. congruence.
Qed.

Lemma output_file_is_cleaned_up_witness :
  OS.removable PromptScenario.env_writes_protected
    (output_file_of Scenario.me PromptScenario.main_py) = false \/
  exists n,
    FS.at_path PromptScenario.fs_rendered
      (output_file_of Scenario.me PromptScenario.main_py) = Some n /\
    FS.is_dir (output_file_of Scenario.me PromptScenario.main_py) n = Ok true.
Proof.
  exact (output_file_is_cleaned_up Scenario.me PromptScenario.env_writes_protected
           PromptScenario.main_py PromptScenario.fs_source PromptScenario.fs_rendered
           [] [("src/main.py", "PROMPT print(1)")] eq_refl eq_refl eq_refl).
Defined.

End OutputFile.

(** ** More about [generate_file_prompts] *)

Section PromptLoopMore.

Import GitHubAnalyzer.

Variable self : GitHubAnalyzer.t.
Variable E : OS.env.

Lemma fallback_loop (file_paths : list PurePath.t) (fs : FS.node) :
  Forall (fun f => tool_missing self E fs f /\ nothing_to_touch self fs f)
    file_paths ->
  forall prompts,
  prompt_loop self E file_paths fs prompts
  = (Ok (fold_left (record_raw self fs) file_paths prompts), fs).
Proof.
  induction 1 as [|f rest [(e0 & Run & F) [M X]] _ IH]; intros m;
    cbn [prompt_loop fold_left]; [reflexivity|].
  assert (P : process_file self E f fs m = (Ok (record_raw self fs m f), fs)).
  { unfold process_file. rewrite M. unfold render, handle. rewrite Run, F.
    unfold cleanup_output. now rewrite X. }
  rewrite P. apply IH.
Qed.

(** X12. Without the tool, on a file system where the directories of
    the output files are there and the output files are not,
    [generate_file_prompts] leaves the file system as it is and returns
    the map built from the raw contents, file after file: the text of a
    file that decodes as UTF-8 under its key, nothing for a file that
    does not decode, and for a file that cannot be opened the error
    text, or nothing when the message holds one of the two markers. *)
Theorem fallback_mode_reads_raw_content
    (file_paths : list PurePath.t) (fs : FS.node) :
  Forall (fun f => tool_missing self E fs f /\ nothing_to_touch self fs f)
    file_paths ->
  generate_file_prompts self E file_paths fs
  = (Ok (fold_left (record_raw self fs) file_paths []), fs).
Proof.
  intros H. unfold generate_file_prompts. now apply fallback_loop.
Qed.

Lemma cleanup_output_raises (output_file : PurePath.t) (fs : FS.node) (e : exn) :
  cleanup_output E output_file fs = Raise e <->
  FS.Path_exists fs output_file = Raise e.
Proof.
  unfold cleanup_output.
  destruct (FS.Path_exists fs output_file) as [[|]|e0].
  - destruct (OS.unlink E output_file fs); split; discriminate.
  - split; discriminate.
  - split; intros H; injection H as ->; reflexivity.
Qed.

(** An iteration raises from one of the two calls that stand outside
    the [try]. *)
Lemma process_file_raises (file_path : PurePath.t) (fs fs' : FS.node)
    (prompts : Dict.t string) (e : exn) :
  let output_file := output_file_of self file_path in
  process_file self E file_path fs prompts = (Raise e, fs') <->
  (FS.mkdir_parents (PurePath.parent output_file) fs = Raise e /\ fs' = fs) \/
  (exists fs0,
     FS.mkdir_parents (PurePath.parent output_file) fs = Ok fs0 /\
     FS.Path_exists (snd (render E file_path output_file fs0)) output_file
       = Raise e /\
     fs' = snd (render E file_path output_file fs0)).
Proof.
  intros output_file. unfold process_file. fold output_file.
  destruct (FS.mkdir_parents _ fs) as [fs0|e0].
  - destruct (render E file_path output_file fs0) as [a fs1] eqn:R.
    destruct (cleanup_output E output_file fs1) as [fs2|e1] eqn:C; split.
    + discriminate.
    + intros [[H _]|(fs0' & H & X & _)]; [discriminate|].
      injection H as <-. rewrite R in X. cbn [snd] in X.
      apply cleanup_output_raises in X. congruence.
    + intros H. injection H as <- <-. right. exists fs0.
      rewrite R. cbn [snd].
      split; [reflexivity|]. split; [now apply cleanup_output_raises|reflexivity].
    + intros [[H _]|(fs0' & H & X & ->)]; [discriminate|].
      injection H as <-. rewrite R in X |- *. cbn [snd] in X |- *.
      apply cleanup_output_raises in X. congruence.
  - split.
    + intros H. injection H as -> ->. left. now split.
    + intros [[H ->]|(fs0 & H & _)]; [|discriminate]. now injection H as ->.
Qed.

Lemma prompt_loop_app (before rest : list PurePath.t) :
  forall fs fs1 prompts prompts1,
  prompt_loop self E before fs prompts = (Ok prompts1, fs1) ->
  prompt_loop self E (before ++ rest) fs prompts
  = prompt_loop self E rest fs1 prompts1.
Proof.
  induction before as [|f before IH]; intros fs fs1 m m1 H;
    cbn [prompt_loop app] in *.
  - now injection H as -> ->.
  - destruct (process_file self E f fs m) as [[m0|e] fs0]; [|discriminate].
    now apply IH.
Qed.

Lemma prompt_loop_raises (file_paths : list PurePath.t) :
  forall fs fs' prompts e,
  prompt_loop self E file_paths fs prompts = (Raise e, fs') ->
  exists before f after prompts' fs1,
    file_paths = before ++ f :: after /\
    prompt_loop self E before fs prompts = (Ok prompts', fs1) /\
    process_file self E f fs1 prompts' = (Raise e, fs').
Proof.
  induction file_paths as [|f rest IH]; intros fs fs' m e H;
    cbn [prompt_loop] in H; [discriminate|].
  destruct (process_file self E f fs m) as [[m0|e0] fs0] eqn:P.
  - destruct (IH _ _ _ _ H) as (before & g & after & m' & fs1 & -> & L & M).
    exists (f :: before), g, after, m', fs1. split; [reflexivity|].
    split; [|exact M]. cbn [prompt_loop]. now rewrite P.
  - injection H as -> ->. exists [], f, rest, m, fs. now repeat split.
Qed.

(** X13. [generate_file_prompts] raises exactly when, for one of the
    files, one of the two calls that stand outside the [try] raises: the
    [mkdir] of the directory of the output file, or the test [exists()]
    of the [finally] clause.  The files before it were processed; the
    error leaves the method, the map is lost, and the files after it are
    not processed.  No failure of the tool or of a read is raised. *)
Theorem generate_file_prompts_raises_outside_the_try
    (file_paths : list PurePath.t) (fs fs' : FS.node) (e : exn) :
  generate_file_prompts self E file_paths fs = (Raise e, fs') <->
  exists before f after prompts fs1,
    file_paths = before ++ f :: after /\
    generate_file_prompts self E before fs = (Ok prompts, fs1) /\
    ((FS.mkdir_parents (PurePath.parent (output_file_of self f)) fs1 = Raise e /\
      fs' = fs1) \/
     (exists fs0,
        FS.mkdir_parents (PurePath.parent (output_file_of self f)) fs1 = Ok fs0 /\
        FS.Path_exists (snd (render E f (output_file_of self f) fs0))
          (output_file_of self f) = Raise e /\
        fs' = snd (render E f (output_file_of self f) fs0))).
Proof.
  unfold generate_file_prompts. split.
  - intros H.
    apply prompt_loop_raises in H as (before & f & after & m & fs1 & -> & L & P).
    exists before, f, after, m, fs1. split; [reflexivity|]. split; [exact L|].
    now apply (process_file_raises f fs1 fs' m e).
  - intros (before & f & after & m & fs1 & -> & L & H).
    rewrite (prompt_loop_app _ _ _ _ _ _ L). cbn [prompt_loop].
    apply (process_file_raises f fs1 fs' m e) in H. now rewrite H.
Qed.

Lemma keys_record (key k : string) (a : attempt) (prompts : Dict.t string) :
  In k (Dict.keys (record key a prompts)) -> k = key \/ In k (Dict.keys prompts).
Proof.
  destruct a as [v| |e]; cbn [record]; [|now right|].
  - apply keys_set.
  - destruct (negb (binary_marker e)); [apply keys_set|now right].
Qed.

Lemma length_set {V : Type} (k : string) (v : V) (d : Dict.t V) :
  List.length (Dict.set k v d) <= S (List.length d).
Proof.
  induction d as [|[k' v'] r IH]; cbn [Dict.set List.length]; [lia|].
  destruct (k' =? k); cbn [List.length]; lia.
Qed.

Lemma length_record (key : string) (a : attempt) (prompts : Dict.t string) :
  List.length (record key a prompts) <= S (List.length prompts).
Proof.
  destruct a as [v| |e]; cbn [record]; [apply length_set|lia|].
  destruct (negb (binary_marker e)); [apply length_set|lia].
Qed.

Lemma prompt_loop_keys (file_paths : list PurePath.t) :
  forall fs fs' prompts prompts',
  prompt_loop self E file_paths fs prompts = (Ok prompts', fs') ->
  (forall k, In k (Dict.keys prompts') ->
     In k (Dict.keys prompts) \/ exists f, In f file_paths /\ k = key_of self f) /\
  List.length prompts' <= List.length prompts + List.length file_paths.
Proof.
  induction file_paths as [|f rest IH]; intros fs fs' m m' H;
    cbn [prompt_loop] in H.
  - injection H as <- _. split; [now left|cbn; lia].
  - destruct (process_file self E f fs m) as [[m1|e] fs1] eqn:P; [|discriminate].
    apply process_file_records in P as [a ->].
    destruct (IH _ _ _ _ H) as [K L]. split.
    + intros k Hk. destruct (K k Hk) as [Hin|(g & Hg & ->)].
      * apply keys_record in Hin as [->|Hin]; [right|now left].
        exists f. split; [now left|reflexivity].
      * right. exists g. split; [now right|reflexivity].
    + pose proof (length_record (key_of self f) a m). cbn [List.length]. lia.
Qed.

(** X14. The map that [generate_file_prompts] returns has a key only
    for files it was given, and so at most as many entries as there are
    files. *)
Theorem generate_file_prompts_keys_stem_from_the_files
    (file_paths : list PurePath.t) (fs fs' : FS.node) (prompts : Dict.t string) :
  generate_file_prompts self E file_paths fs = (Ok prompts, fs') ->
  (forall k, In k (Dict.keys prompts) ->
     exists f, In f file_paths /\ k = key_of self f) /\
  List.length prompts <= List.length file_paths.
Proof.
  intros H. apply prompt_loop_keys in H as [K L]. split; [|exact L].
  intros k Hk. destruct (K k Hk) as [[]|F]. exact F.
Qed.

End PromptLoopMore.

Section PromptLoopWitnesses.

Import GitHubAnalyzer.

Lemma fallback_mode_reads_raw_content_witness :
  generate_file_prompts Scenario.me Scenario.env_plain
    [PromptScenario.blob_py; PromptScenario.ok_py;
     ["/"; "tmp"; "w"; "gone.py"]] PromptScenario.fs_blob
  = (Ok [("ok.py", "pass");
         ("gone.py",
          "Error processing file: [Errno 2] No such file or directory: '/tmp/w/gone.py'")],
     PromptScenario.fs_blob).
Proof.
  apply (fallback_mode_reads_raw_content Scenario.me Scenario.env_plain
           [PromptScenario.blob_py; PromptScenario.ok_py;
            ["/"; "tmp"; "w"; "gone.py"]] PromptScenario.fs_blob).
  repeat constructor; exists Scenario.not_installed; split; reflexivity.
Defined.

Lemma generate_file_prompts_raises_outside_the_try_witness :
  generate_file_prompts Scenario.me Scenario.env_plain
    [PromptScenario.ok_py; ["/"; "tmp"; "w"; "ok.py"; "inner.py"];
     PromptScenario.blob_py]
    PromptScenario.fs_blob
    = (Raise (FS.EEXIST ["/"; "tmp"; "w"; "ok.py"]), PromptScenario.fs_blob) /\
  generate_file_prompts Scenario.me Scenario.env_plain
    [MarkerScenario.data_ok_py] MarkerScenario.fs_closed_workspace
    = (Raise (FS.EACCES ["/"; "tmp"; "w"; "ok.py.prompt.txt"]),
       MarkerScenario.fs_closed_workspace).
Proof.
  split.
  - apply (generate_file_prompts_raises_outside_the_try Scenario.me
             Scenario.env_plain).
    exists [PromptScenario.ok_py], ["/"; "tmp"; "w"; "ok.py"; "inner.py"],
      [PromptScenario.blob_py], [("ok.py", "pass")], PromptScenario.fs_blob.
    split; [reflexivity|]. split; [reflexivity|]. left. split; reflexivity.
  - apply (generate_file_prompts_raises_outside_the_try Scenario.me
             Scenario.env_plain).
    exists [], MarkerScenario.data_ok_py, [], [],
      MarkerScenario.fs_closed_workspace.
    split; [reflexivity|]. split; [reflexivity|]. right.
    exists MarkerScenario.fs_closed_workspace. repeat split.
Defined.

Lemma generate_file_prompts_keys_stem_from_the_files_witness :
  (forall k, In k (Dict.keys [("ok.py", "pass")]) ->
     exists f, In f [PromptScenario.blob_py; PromptScenario.ok_py] /\
               k = key_of Scenario.me f) /\
  List.length [("ok.py", "pass")] <= 2.
Proof.
  exact (generate_file_prompts_keys_stem_from_the_files Scenario.me
           Scenario.env_plain [PromptScenario.blob_py; PromptScenario.ok_py]
           PromptScenario.fs_blob PromptScenario.fs_blob [("ok.py", "pass")]
           eq_refl).
Defined.

End PromptLoopWitnesses.

(** ** More about [analyze] *)

Section AnalyzeMore.

Import GitHubAnalyzer.

(** How a run of [analyze] that returns went. *)
Lemma analyze_returns (self : GitHubAnalyzer.t) (E : OS.env) (fs fs' : FS.node)
    (r : result) :
  analyze self E fs = (Ok r, fs') ->
  exists code_files doc_files fs2 fs3,
    fst (clone_repository self E fs) = Ok (PurePath.Path (temp_dir self)) /\
    find_files self (PurePath.Path (temp_dir self))
      (snd (clone_repository self E fs)) = Ok (code_files, doc_files) /\
    generate_file_prompts self E code_files (snd (clone_repository self E fs))
      = (Ok (code r), fs2) /\
    generate_file_prompts self E doc_files fs2 = (Ok (doc r), fs3) /\
    filetree r = generate_file_tree (PurePath.Path (temp_dir self)) fs3 /\
    fs' = cleanup self E fs3.
Proof.
  unfold analyze, analyze_body.
  assert (C : forall p fs1, clone_repository self E fs = (Ok p, fs1) ->
                            p = PurePath.Path (temp_dir self)).
  { unfold clone_repository. intros p fs1.
    destruct (OS.subprocess_run E _ fs) as [[out|e] fs0]; [|discriminate].
    now intros [= <- _]. }
  destruct (clone_repository self E fs) as [[repo|e] fs1] eqn:Cl;
    [|discriminate]. rewrite (C _ _ eq_refl). cbn [fst snd].
  destruct (find_files self _ fs1) as [[cf df]|e] eqn:F; [|discriminate].
  destruct (generate_file_prompts self E cf fs1) as [[cp|e] fs2] eqn:Gc;
    [|discriminate].
  destruct (generate_file_prompts self E df fs2) as [[dp|e] fs3] eqn:Gd;
    [|discriminate].
  intros H. injection H as <- <-. exists cf, df, fs2, fs3. cbn [code doc filetree].
  repeat split; assumption.
Qed.

(** The key of a listed path and the entry it stems from. *)
Lemma listed_key (self : GitHubAnalyzer.t) (path : PurePath.t) (fs : FS.node)
    (b : bool) (p : PurePath.t) :
  wf_names fs = true ->
  origin self path (FS.rglob_at fs path) b p ->
  exists rel c,
    In (rel, FS.File c) (FS.rglob_at fs path) /\
    rel <> [] /\ PurePath.wf_rel rel = true /\
    key_of self p = PyStr.join_slash rel /\
    (if b then code_entry path (rel, FS.File c)
     else doc_entry path (rel, FS.File c)) = true.
Proof.
  intros W (rel & c & rp & Hin & B & R & -> & Cb).
  destruct (rglob_at_wf fs path W _ _ Hin) as [Ne Wrel].
  rewrite (relative_to_app _ _ Wrel) in R. injection R as <-.
  exists rel, c. rewrite (joinpath_rel _ _ Wrel).
  split; [exact Hin|]. split; [exact Ne|]. split; [exact Wrel|]. split.
  - unfold key_of. rewrite (relative_to_app _ _ Wrel), (str_wf_rel _ Wrel).
    destruct rel; [contradiction|reflexivity].
  - unfold code_entry, doc_entry. cbn [fst snd]. rewrite B.
    destruct b; [now rewrite Cb|]. destruct Cb as [-> ->]. reflexivity.
Qed.

Lemma result_keys (self : GitHubAnalyzer.t) (E : OS.env) (fs fs' : FS.node)
    (r : result) :
  analyze self E fs = (Ok r, fs') ->
  wf_names (snd (clone_repository self E fs)) = true ->
  forall (b : bool) (k : string),
  In k (Dict.keys (if b then code r else doc r)) ->
  exists rel c,
    In (rel, FS.File c)
       (FS.rglob_at (snd (clone_repository self E fs))
          (PurePath.Path (temp_dir self))) /\
    rel <> [] /\ PurePath.wf_rel rel = true /\
    k = PyStr.join_slash rel /\
    (if b then code_entry (PurePath.Path (temp_dir self)) (rel, FS.File c)
     else doc_entry (PurePath.Path (temp_dir self)) (rel, FS.File c)) = true.
Proof.
  intros H W b k Hk.
  apply analyze_returns in H as (cf & df & fs2 & fs3 & _ & F & Gc & Gd & _).
  apply find_files_returns, find_loop_sound in F as [Sc Sd].
  assert (O : exists p, origin self (PurePath.Path (temp_dir self))
                          (FS.rglob_at (snd (clone_repository self E fs))
                             (PurePath.Path (temp_dir self))) b p /\
                        k = key_of self p).
  { destruct b.
    - apply prompt_loop_keys in Gc as [K _].
      destruct (K k Hk) as [[]|(p & Hp & ->)].
      destruct (Sc p Hp) as [[]|O]. now exists p.
    - apply prompt_loop_keys in Gd as [K _].
      destruct (K k Hk) as [[]|(p & Hp & ->)].
      destruct (Sd p Hp) as [[]|O]. now exists p. }
  destruct O as (p & O & ->).
  apply (listed_key _ _ _ _ _ W) in O as (rel & c & O).
  now exists rel, c.
Qed.

(** X15. In the result of [analyze], each key of the code map is the
    path, relative to the workspace and joined by slashes, of a regular
    file of the checkout that has a code suffix and no binary suffix;
    each key of the doc map is such a path of a regular file with a doc
    pattern and neither a binary nor a code suffix. *)
Theorem analyze_maps_are_keyed_by_relative_paths
    (self : GitHubAnalyzer.t) (E : OS.env) (fs fs' : FS.node) (r : result) :
  let workspace := PurePath.Path (temp_dir self) in
  let checkout := snd (clone_repository self E fs) in
  analyze self E fs = (Ok r, fs') ->
  wf_names checkout = true ->
  (forall k, In k (Dict.keys (code r)) ->
     exists rel c,
       In (rel, FS.File c) (FS.rglob_at checkout workspace) /\
       k = PyStr.join_slash rel /\
       code_entry workspace (rel, FS.File c) = true) /\
  (forall k, In k (Dict.keys (doc r)) ->
     exists rel c,
       In (rel, FS.File c) (FS.rglob_at checkout workspace) /\
       k = PyStr.join_slash rel /\
       doc_entry workspace (rel, FS.File c) = true).
Proof.
  intros workspace checkout H W. split; intros k Hk.
  - destruct (result_keys self E fs fs' r H W true k Hk)
      as (rel & c & Hin & _ & _ & K & C).
    now exists rel, c.
  - destruct (result_keys self E fs fs' r H W false k Hk)
      as (rel & c & Hin & _ & _ & K & C).
    now exists rel, c.
Qed.

(** X16. In the result of [analyze], no key of the code map is a key of
    the doc map. *)
Theorem analyze_maps_share_no_key
    (self : GitHubAnalyzer.t) (E : OS.env) (fs fs' : FS.node) (r : result)
    (k : string) :
  analyze self E fs = (Ok r, fs') ->
  wf_names (snd (clone_repository self E fs)) = true ->
  In k (Dict.keys (code r)) -> ~ In k (Dict.keys (doc r)).
Proof.
  intros H W Hc Hd.
  destruct (result_keys self E fs fs' r H W true k Hc)
    as (r1 & c1 & _ & N1 & W1 & K1 & C1).
  destruct (result_keys self E fs fs' r H W false k Hd)
    as (r2 & c2 & _ & N2 & W2 & K2 & C2).
  rewrite K1 in K2. apply join_slash_inj in K2; trivial. subst r2.
  unfold code_entry, doc_entry in C1, C2. cbn [fst snd] in C1, C2.
  apply andb_true_iff in C1 as [_ C1].
  apply andb_true_iff in C2 as [C2 _]. apply andb_true_iff in C2 as [_ C2].
  rewrite C1 in C2. discriminate.
Qed.

End AnalyzeMore.

Section AnalyzeWitnesses.

Import GitHubAnalyzer.

Lemma analyze_maps_are_keyed_by_relative_paths_witness :
  exists rel c,
    In (rel, FS.File c) (FS.rglob_at Scenario.fs_cloned Scenario.workspace) /\
    "src/main.py" = PyStr.join_slash rel /\
    code_entry Scenario.workspace (rel, FS.File c) = true.
Proof.
  destruct (analyze_maps_are_keyed_by_relative_paths Scenario.me Scenario.env_plain
              Scenario.fs_empty Scenario.fs_empty
              (Result
                 [("src", Sub [("main.py", Leaf "/tmp/w/src/main.py")]);
                  ("README.md", Leaf "/tmp/w/README.md");
                  ("MIT-LICENSE", Leaf "/tmp/w/MIT-LICENSE");
                  ("assets",
                   Sub [("img", Sub [("logo.png", Leaf "/tmp/w/assets/img/logo.png")])])]
                 [("README.md", "# Title");
                  ("MIT-LICENSE", "Permission is hereby granted")]
                 [("src/main.py", "print(1)")])
              eq_refl eq_refl) as [C _].
  apply C. now left.
Defined.

Lemma analyze_maps_share_no_key_witness :
  ~ In "src/main.py" ["README.md"; "MIT-LICENSE"].
Proof.
  apply (analyze_maps_share_no_key Scenario.me Scenario.env_plain
           Scenario.fs_empty Scenario.fs_empty
           (Result
              [("src", Sub [("main.py", Leaf "/tmp/w/src/main.py")]);
               ("README.md", Leaf "/tmp/w/README.md");
               ("MIT-LICENSE", Leaf "/tmp/w/MIT-LICENSE");
               ("assets",
                Sub [("img", Sub [("logo.png", Leaf "/tmp/w/assets/img/logo.png")])])]
              [("README.md", "# Title");
               ("MIT-LICENSE", "Permission is hereby granted")]
              [("src/main.py", "print(1)")])
           "src/main.py" eq_refl eq_refl).
  now left.
Defined.

End AnalyzeWitnesses.
